(** * Country data utilities (countryUtils.js): a shallow embedding

    The module under verification exports four functions,
    [flattenCountryFields], [formatLanguages], [formatNumber] and
    [flattenCountriesArray].  They are written in JavaScript and receive
    whatever the caller hands them, so the embedding starts with the values
    of the language and the handful of language operations the four
    functions use: truthiness, [typeof], property reads, optional chaining,
    [Object.values], [Array.prototype.join], [Array.isArray],
    [Array.prototype.map] and [toLocaleString].

    Operations that raise in JavaScript raise here: every function returns
    in the error monad [result]. *)

From Stdlib Require Import ZArith List Bool Ascii String Lia.
From Stdlib Require Import Sorting.Permutation.
From Stdlib Require Import Floats.SpecFloat.
Import ListNotations.

Local Open Scope Z_scope.

(** ** Strings

    A JavaScript string is a sequence of UTF-16 code units.  Source
    literals are ASCII and are written [lit "N/A"]; the empty string is
    [[]]. *)

Definition code_unit := N.
Definition jsstring := list code_unit.

Definition lit (s : string) : jsstring :=
  map N_of_ascii (list_ascii_of_string s).

Fixpoint jsstring_eqb (a b : jsstring) : bool :=
  match a, b with
  | [], [] => true
  | x :: a', y :: b' => N.eqb x y && jsstring_eqb a' b'
  | _, _ => false
  end.

(** ** Numbers

    A JavaScript number is an IEEE 754 binary64 value; [spec_float] is the
    standard library's inductive description of those ([S754_zero],
    [S754_infinity], [S754_nan], and [S754_finite s m e] for
    [(-1)^s * m * 2^e]). *)

Definition number := spec_float.

Definition prec : Z := 53.
Definition emax : Z := 1024.

(** The representations that are binary64 values: the significand has 53
    bits, or fewer at the least exponent. *)
Definition is_binary64 (x : number) : bool := valid_binary prec emax x.

(** The number denoted by an integer literal (rounded to nearest even when
    it does not fit in 53 bits). *)
Definition number_of_Z (z : Z) : number := binary_normalize prec emax z 0 false.

(** ** Values

    The values are those of plain data: what [JSON.parse] produces, and
    [undefined].  An object is the list of its own enumerable properties in
    the order [Object.keys] reports them (the keys of an object are
    pairwise distinct); every object has [Object.prototype] as its
    prototype and every array is dense.  Functions, symbols, accessors and
    exotic prototypes are outside the model. *)

#[local] Unset Elimination Schemes.

Inductive value : Type :=
| Undefined
| Null
| Bool (b : bool)
| Num (x : number)
| Str (s : jsstring)
| Arr (elems : list value)
| Obj (props : list (jsstring * value)).

#[local] Set Elimination Schemes.

(** ** Exceptions *)

Inductive error : Type :=
| TypeError.

Inductive result (A : Type) : Type :=
| Ok (a : A)
| Throw (e : error).

Arguments Ok {A} a.
Arguments Throw {A} e.

Definition bind {A B} (r : result A) (k : A -> result B) : result B :=
  match r with
  | Ok a => k a
  | Throw e => Throw e
  end.

Notation "x <- r ;; k" := (bind r (fun x => k))
  (at level 61, r at next level, right associativity).

Fixpoint mapM {A B} (f : A -> result B) (l : list A) : result (list B) :=
  match l with
  | [] => Ok []
  | a :: l' => b <- f a ;; bs <- mapM f l' ;; Ok (b :: bs)
  end.

(** ** Language operations *)

Definition is_undefined (v : value) : bool :=
  match v with Undefined => true | _ => false end.

Definition is_null (v : value) : bool :=
  match v with Null => true | _ => false end.

Definition nullish (v : value) : bool := is_undefined v || is_null v.

(** [ToBoolean]: the falsy values are [undefined], [null], [false], [+0],
    [-0], [NaN] and the empty string. *)
Definition ToBoolean (v : value) : bool :=
  match v with
  | Undefined | Null => false
  | Bool b => b
  | Num (S754_zero _) | Num S754_nan => false
  | Num _ => true
  | Str [] => false
  | Str _ => true
  | Arr _ | Obj _ => true
  end.

Definition typeof (v : value) : jsstring :=
  match v with
  | Undefined => lit "undefined"
  | Null => lit "object"
  | Bool _ => lit "boolean"
  | Num _ => lit "number"
  | Str _ => lit "string"
  | Arr _ | Obj _ => lit "object"
  end.

(** [v === x] for a number [x]: IEEE equality on numbers, false on every
    other type. *)
Definition strict_eq_number (v : value) (x : number) : bool :=
  match v with
  | Num y => SFeqb y x
  | _ => false
  end.

(** [a || b] *)
Definition or_else (a b : value) : value :=
  if ToBoolean a then a else b.

(** Own property lookup. *)
Fixpoint own_property (props : list (jsstring * value)) (p : jsstring)
  : option value :=
  match props with
  | [] => None
  | (k, v) :: rest => if jsstring_eqb k p then Some v else own_property rest p
  end.

Definition has_own (props : list (jsstring * value)) (p : jsstring) : bool :=
  match own_property props p with Some _ => true | None => false end.

(** Decimal digits, as code units. *)
Definition digit_unit (d : Z) : code_unit := Z.to_N (48 + d).

Fixpoint digits_fuel (fuel : nat) (z : Z) (acc : jsstring) : jsstring :=
  match fuel with
  | O => acc
  | S fuel' =>
      let acc' := digit_unit (z mod 10) :: acc in
      if z <? 10 then acc' else digits_fuel fuel' (z / 10) acc'
  end.

(** The decimal numeral of a non-negative integer. *)
Definition decimal (z : Z) : jsstring :=
  digits_fuel (S (Z.to_nat (Z.log2 z))) z [].

(** A property name that is a canonical array index ("0", "1", "2", ...
    without sign or leading zero) denotes that index. *)
Fixpoint parse_digits (s : jsstring) (acc : N) : option N :=
  match s with
  | [] => Some acc
  | c :: s' =>
      if (48 <=? c)%N && (c <=? 57)%N
      then parse_digits s' (acc * 10 + (c - 48))%N
      else None
  end.

Definition array_index (p : jsstring) : option nat :=
  match p with
  | [] => None
  | [48%N] => Some O
  | 48%N :: _ => None
  | _ => option_map N.to_nat (parse_digits p 0%N)
  end.

(** [v[p]] / [v.p].  Reading a property of [undefined] or [null] raises a
    [TypeError]; a property that is not there reads as [undefined].  Besides
    own properties the indices and [length] of strings and arrays are
    modelled; the inherited methods of the standard prototypes are not data
    and are not modelled, the source reads none of them with this
    operation. *)
Definition Get (v : value) (p : jsstring) : result value :=
  match v with
  | Undefined | Null => Throw TypeError
  | Bool _ | Num _ => Ok Undefined
  | Str s =>
      match array_index p with
      | Some i =>
          match nth_error s i with
          | Some c => Ok (Str [c])
          | None => Ok Undefined
          end
      | None =>
          if jsstring_eqb p (lit "length")
          then Ok (Num (number_of_Z (Z.of_nat (List.length s))))
          else Ok Undefined
      end
  | Arr l =>
      match array_index p with
      | Some i =>
          match nth_error l i with
          | Some x => Ok x
          | None => Ok Undefined
          end
      | None =>
          if jsstring_eqb p (lit "length")
          then Ok (Num (number_of_Z (Z.of_nat (List.length l))))
          else Ok Undefined
      end
  | Obj props =>
      match own_property props p with
      | Some x => Ok x
      | None => Ok Undefined
      end
  end.

(** [v?.p] / [v?.[p]]: optional chaining short-circuits to [undefined] on
    [undefined] and [null]. *)
Definition Get_opt (v : value) (p : jsstring) : result value :=
  if nullish v then Ok Undefined else Get v p.

(** ** Numbers as text *)

Definition intercalate (sep : jsstring) (l : list jsstring) : jsstring :=
  match l with
  | [] => []
  | s :: rest => s ++ List.concat (map (fun t => sep ++ t) rest)
  end.

Fixpoint strip_zeros_fuel (fuel : nat) (s p : Z) : Z * Z :=
  match fuel with
  | O => (s, p)
  | S fuel' =>
      if (0 <? s) && (s mod 10 =? 0)
      then strip_zeros_fuel fuel' (s / 10) (p + 1)
      else (s, p)
  end.

(** The least [j], counting up from the given one, with [b <= a * 10^j]. *)
Fixpoint scale_up_fuel (fuel : nat) (a b j : Z) : Z :=
  match fuel with
  | O => j
  | S fuel' => if b <=? a * 10 ^ j then j else scale_up_fuel fuel' a b (j + 1)
  end.

Section Shortest.

(** The positive number [m * 2^e], a binary64 value ([is_binary64]). *)
Variables (m : positive) (e : Z).

(** Everything is scaled by [2^sh], which makes the number and the
    midpoints to its two neighbours integers. *)
Definition sh : Z := if e <? 2 then 2 - e else 0.
Definition scale : Z := 2 ^ sh.
Definition Xs : Z := Zpos m * 2 ^ (e + sh).
Definition half_up : Z := 2 ^ (e + sh - 1).
Definition half_down : Z :=
  if (Zpos m =? 2 ^ (prec - 1)) && (3 - emax - prec <? e)
  then 2 ^ (e + sh - 2) else 2 ^ (e + sh - 1).

(** [n0] with [10^(n0-1) <= m * 2^e < 10^n0]. *)
Definition decimal_exponent : Z :=
  if scale <=? Xs
  then Z.of_nat (List.length (decimal (Xs / scale)))
  else 1 - scale_up_fuel 400 Xs scale 1.

(** Does [s * 10^p] read back as [m * 2^e]?  The interval of reals that
    round to the number is closed when the significand is even. *)
Definition reads_back (s p : Z) : bool :=
  let A := s * scale * 10 ^ Z.max p 0 in
  let B := 10 ^ Z.max (- p) 0 in
  if Z.even (Zpos m)
  then ((Xs - half_down) * B <=? A) && (A <=? (Xs + half_up) * B)
  else ((Xs - half_down) * B <? A) && (A <? (Xs + half_up) * B).

(** The candidates with last digit at [10^p]: the two integers around
    [m * 2^e / 10^p]; among those that read back the closer one wins, and
    the even one on a tie. *)
Definition candidate (p : Z) : option Z :=
  let A := scale * 10 ^ Z.max p 0 in
  let B := 10 ^ Z.max (- p) 0 in
  let lo := (Xs * B) / A in
  let hi := lo + 1 in
  match reads_back lo p, reads_back hi p with
  | true, true =>
      let dlo := Xs * B - lo * A in
      let dhi := hi * A - Xs * B in
      if dlo <? dhi then Some lo
      else if dhi <? dlo then Some hi
      else if Z.even lo then Some lo else Some hi
  | true, false => Some lo
  | false, true => Some hi
  | false, false => None
  end.

(** Try 1, 2, ... digits; seventeen always suffice for binary64. *)
Fixpoint shortest_fuel (fuel : nat) (k : Z) : Z * Z :=
  let p := decimal_exponent - k in
  match fuel with
  | O => ((Xs * 10 ^ Z.max (- p) 0) / (scale * 10 ^ Z.max p 0), p)
  | S fuel' =>
      match candidate p with
      | Some s => (s, p)
      | None => shortest_fuel fuel' (k + 1)
      end
  end.

(** The digits [s] and the exponent [p] of the shortest decimal
    [s * 10^p] that reads back as [m * 2^e], [s] not a multiple of 10. *)
Definition shortest : Z * Z :=
  let '(s, p) := shortest_fuel 17 1 in
  strip_zeros_fuel 400 s p.

End Shortest.

Definition repeat_unit (c : code_unit) (n : Z) : jsstring :=
  repeat c (Z.to_nat n).

(** [Number::toString(x)] in radix 10 (ECMA-262, 6.1.6.1.20). *)
Definition Number_toString (x : number) : jsstring :=
  match x with
  | S754_nan => lit "NaN"
  | S754_zero _ => lit "0"
  | S754_infinity false => lit "Infinity"
  | S754_infinity true => lit "-Infinity"
  | S754_finite sign m e =>
      let '(s, p) := shortest m e in
      let ds := decimal s in
      let k := Z.of_nat (List.length ds) in
      let n := p + k in
      let body :=
        if (k <=? n) && (n <=? 21) then
          ds ++ repeat_unit 48%N (n - k)
        else if (0 <? n) && (n <=? 21) then
          firstn (Z.to_nat n) ds ++ lit "." ++ skipn (Z.to_nat n) ds
        else if (-6 <? n) && (n <=? 0) then
          lit "0." ++ repeat_unit 48%N (- n) ++ ds
        else
          let exponent :=
            lit "e" ++ (if 0 <=? n - 1 then lit "+" else lit "-")
                    ++ decimal (Z.abs (n - 1)) in
          if k =? 1 then ds ++ exponent
          else firstn 1 ds ++ lit "." ++ skipn 1 ds ++ exponent
      in
      (if sign then lit "-" else []) ++ body
  end.

(** Thousands grouping of a digit string, from the right. *)
Fixpoint group_rev (r : jsstring) : jsstring :=
  match r with
  | a :: b :: c :: (_ :: _) as rest => a :: b :: c :: 44%N :: group_rev rest
  | _ => r
  end.

Definition group_thousands (ds : jsstring) : jsstring :=
  rev (group_rev (rev ds)).

(** The integer nearest to [1000 * s * 10^p], ties away from zero. *)
Definition round_thousandths (s p : Z) : Z :=
  if -3 <=? p then s * 10 ^ (p + 3)
  else (2 * s + 10 ^ (- p - 3)) / (2 * 10 ^ (- p - 3)).

(** The binary64 representation of the positive number [m * 2^e]: a
    binary64 value is left as it is, any other pair is normalised
    first. *)
Definition canonical (m : positive) (e : Z) : number :=
  binary_normalize prec emax (Zpos m) e false.

Definition fraction_digits (f : Z) : jsstring :=
  if f =? 0 then []
  else
    let '(s, _) := strip_zeros_fuel 3 (1000 + f) 0 in
    lit "." ++ skipn 1 (decimal s).

(** [Number.prototype.toLocaleString()] without arguments, which is
    [Intl.NumberFormat] with its defaults (decimal style, at most three
    fraction digits, rounding half away from zero, grouping on) in the
    locale the module's documentation shows, en-US: groups of three
    separated by [","], decimal point ["."].  The digits that are
    formatted are those of the shortest decimal that reads back as the
    number, as in [Number_toString]: a large number ends in zeros, and a
    tie is decided on the decimal, not on the binary value. *)
Definition Number_toLocaleString (x : number) : jsstring :=
  match x with
  | S754_nan => lit "NaN"
  | S754_zero sign => (if sign then lit "-" else []) ++ lit "0"
  | S754_infinity sign => (if sign then lit "-" else []) ++ [8734%N]
  | S754_finite sign m e =>
      (if sign then lit "-" else [])
        ++ match canonical m e with
           | S754_finite _ m' e' =>
               let '(s, p) := shortest m' e' in
               let n := round_thousandths s p in
               group_thousands (decimal (n / 1000))
                 ++ fraction_digits (n mod 1000)
           | S754_infinity _ => [8734%N]
           | _ => lit "0"
           end
  end.

(** ** Values as text *)

(** [ToString].  An array converts through [Array.prototype.toString],
    which is [join] with the default separator [","].  An object converts
    through its [toString] method: that is [Object.prototype.toString]
    unless an own property of that name shadows it, and an own property is
    data, not callable, which leaves no method that returns a primitive: a
    [TypeError]. *)
Fixpoint ToString (v : value) : result jsstring :=
  match v with
  | Undefined => Ok (lit "undefined")
  | Null => Ok (lit "null")
  | Bool true => Ok (lit "true")
  | Bool false => Ok (lit "false")
  | Num x => Ok (Number_toString x)
  | Str s => Ok s
  | Arr l =>
      strs <- (fix elements (l : list value) : result (list jsstring) :=
                 match l with
                 | [] => Ok []
                 | x :: l' =>
                     s <- (if nullish x then Ok [] else ToString x) ;;
                     ss <- elements l' ;;
                     Ok (s :: ss)
                 end) l ;;
      Ok (intercalate (lit ",") strs)
  | Obj props =>
      if has_own props (lit "toString") then Throw TypeError
      else Ok (lit "[object Object]")
  end.

(** [Array.prototype.join]: [undefined] and [null] elements contribute the
    empty string, every other element its [ToString], left to right. *)
Definition join_element (x : value) : result jsstring :=
  if nullish x then Ok [] else ToString x.

Definition Array_join (l : list value) (sep : jsstring) : result jsstring :=
  strs <- mapM join_element l ;;
  Ok (intercalate sep strs).

(** [v.toLocaleString()].  Numbers have their own method; booleans, strings
    and objects inherit [Object.prototype.toLocaleString], which calls
    [toString]; arrays call [toLocaleString] on each element that is not
    [undefined] or [null] and join with [","]. *)
Fixpoint Invoke_toLocaleString (v : value) : result jsstring :=
  match v with
  | Undefined | Null => Throw TypeError
  | Num x => Ok (Number_toLocaleString x)
  | Bool _ | Str _ => ToString v
  | Arr l =>
      strs <- (fix elements (l : list value) : result (list jsstring) :=
                 match l with
                 | [] => Ok []
                 | x :: l' =>
                     s <- (if nullish x then Ok []
                           else Invoke_toLocaleString x) ;;
                     ss <- elements l' ;;
                     Ok (s :: ss)
                 end) l ;;
      Ok (intercalate (lit ",") strs)
  | Obj props =>
      if has_own props (lit "toLocaleString") then Throw TypeError
      else ToString v
  end.

(** [Object.values]: the own enumerable property values in property
    order. *)
Definition Object_values (v : value) : result (list value) :=
  match v with
  | Undefined | Null => Throw TypeError
  | Bool _ | Num _ => Ok []
  | Str s => Ok (map (fun c => Str [c]) s)
  | Arr l => Ok l
  | Obj props => Ok (map snd props)
  end.

Definition Array_isArray (v : value) : bool :=
  match v with Arr _ => true | _ => false end.

(** [v.map(f)]: only arrays have the method. *)
Definition Array_map (f : value -> result value) (v : value) : result value :=
  match v with
  | Arr l => outs <- mapM f l ;; Ok (Arr outs)
  | _ => Throw TypeError
  end.

(** * The module *)

Definition NA : value := Str (lit "N/A").

(** The object literal both [return] statements of
    [flattenCountryFields] build. *)
Definition flat_record (name region capital languages population area flagUrl
                        : value) : value :=
  Obj [ (lit "name", name);
        (lit "region", region);
        (lit "capital", capital);
        (lit "languages", languages);
        (lit "population", population);
        (lit "area", area);
        (lit "flagUrl", flagUrl) ].

Definition formatLanguages (languages : value) : result value :=
  if negb (ToBoolean languages)
     || negb (jsstring_eqb (typeof languages) (lit "object"))
  then Ok NA
  else
    languageList <- Object_values languages ;;
    if (0 <? List.length languageList)%nat
    then s <- Array_join languageList (lit ", ") ;; Ok (Str s)
    else Ok NA.

Definition formatNumber (num : value) : result value :=
  if negb (ToBoolean num) && negb (strict_eq_number num (number_of_Z 0))
  then Ok NA
  else s <- Invoke_toLocaleString num ;; Ok (Str s).

(** [(c.p !== undefined && c.p !== null) ? c.p : 'N/A'] *)
Definition present_or_NA (c : value) (p : jsstring) : result value :=
  a <- Get c p ;;
  if negb (is_undefined a)
  then
    b <- Get c p ;;
    if negb (is_null b) then Get c p else Ok NA
  else Ok NA.

Definition flattenCountryFields (country : value) : result value :=
  if negb (ToBoolean country)
     || negb (jsstring_eqb (typeof country) (lit "object"))
  then
    Ok (flat_record NA NA NA NA NA NA (Str []))
  else
    name <- (n <- Get country (lit "name") ;;
             c <- Get_opt n (lit "common") ;;
             Ok (or_else c NA)) ;;
    region <- (r <- Get country (lit "region") ;; Ok (or_else r NA)) ;;
    capital <- (cs <- Get country (lit "capital") ;;
                c <- Get_opt cs (lit "0") ;;
                Ok (or_else c NA)) ;;
    languages <- (l <- Get country (lit "languages") ;; formatLanguages l) ;;
    population <- present_or_NA country (lit "population") ;;
    area <- present_or_NA country (lit "area") ;;
    flagUrl <- (f <- Get country (lit "flags") ;;
                u <- Get_opt f (lit "png") ;;
                Ok (or_else u (Str []))) ;;
    Ok (flat_record name region capital languages population area flagUrl).

Definition flattenCountriesArray (countries : value) : result value :=
  if negb (Array_isArray countries) then Ok (Arr [])
  else Array_map (fun country => flattenCountryFields country) countries.

(** * Vocabulary of the properties *)

Definition is_structured (v : value) : bool :=
  match v with
  | Arr _ | Obj _ => true
  | _ => false
  end.

Definition is_string (v : value) : bool :=
  match v with Str _ => true | _ => false end.

Definition is_number (v : value) : bool :=
  match v with Num _ => true | _ => false end.

Definition is_ok {A} (r : result A) : bool :=
  match r with Ok _ => true | Throw _ => false end.

(** What a tolerant read [v?.p] yields; it never raises. *)
Definition read (v : value) (p : jsstring) : value :=
  match Get_opt v p with
  | Ok x => x
  | Throw _ => Undefined
  end.

(** The rule of [population] and [area]. *)
Definition keep (x : value) : value := if nullish x then NA else x.

(** The record every input that is not an object is mapped to. *)
Definition absent_record : value :=
  flat_record NA NA NA NA NA NA (Str []).

(** [flattenCountryFields], field by field: the record it returns when
    [formatLanguages] has returned [langs].  The call of [formatLanguages]
    is the only step that can raise; every other field is a closed
    expression over tolerant reads of the input. *)
Definition flattened (v langs : value) : value :=
  flat_record
    (or_else (read (read v (lit "name")) (lit "common")) NA)
    (or_else (read v (lit "region")) NA)
    (or_else (read (read v (lit "capital")) (lit "0")) NA)
    langs
    (keep (read v (lit "population")))
    (keep (read v (lit "area")))
    (or_else (read (read v (lit "flags")) (lit "png")) (Str [])).

(** [m * 2^e] is the integer [z]. *)
Definition integral (m : positive) (e : Z) (z : Z) : Prop :=
  (0 <= e /\ z = Zpos m * 2 ^ e) \/ (e < 0 /\ Zpos m = z * 2 ^ (- e)).

(** [ToString v] returns: no object with an own [toString] is met. *)
Fixpoint text_safe (v : value) : bool :=
  match v with
  | Arr l => forallb text_safe l
  | Obj props => negb (has_own props (lit "toString"))
  | _ => true
  end.

(** [v.toLocaleString()] returns, for [v] other than [undefined] and
    [null]. *)
Fixpoint locale_safe (v : value) : bool :=
  match v with
  | Arr l => forallb locale_safe l
  | Obj props =>
      negb (has_own props (lit "toLocaleString"))
      && negb (has_own props (lit "toString"))
  | _ => true
  end.

(** The values [formatLanguages] joins convert to text. *)
Definition languages_safe (v : value) : bool :=
  match v with
  | Arr l => forallb text_safe l
  | Obj props => forallb text_safe (map snd props)
  | _ => true
  end.

(** The two records of the module's documentation. *)
Definition france : value :=
  Obj [ (lit "name", Obj [ (lit "common", Str (lit "France")) ]);
        (lit "region", Str (lit "Europe"));
        (lit "capital", Arr [ Str (lit "Paris") ]);
        (lit "languages", Obj [ (lit "fra", Str (lit "French")) ]);
        (lit "population", Num (number_of_Z 67391582));
        (lit "area", Num (number_of_Z 551695));
        (lit "flags",
         Obj [ (lit "png", Str (lit "https://flagcdn.com/w320/fr.png")) ]) ].

Definition antarctica : value :=
  Obj [ (lit "name", Obj [ (lit "common", Str (lit "Antarctica")) ]);
        (lit "area", Num (number_of_Z 14000000));
        (lit "flags",
         Obj [ (lit "svg", Str (lit "https://flagcdn.com/aq.svg")) ]) ].

(** * The callers in example-usage.js *)

Fixpoint filterM {A} (f : A -> result value) (l : list A) : result (list A) :=
  match l with
  | [] => Ok []
  | a :: l' =>
      selected <- f a ;;
      rest <- filterM f l' ;;
      Ok (if ToBoolean selected then a :: rest else rest)
  end.

(** [v.filter(f)]: only arrays have the method; an element is kept when
    the callback's result is truthy. *)
Definition Array_filter (f : value -> result value) (v : value)
  : result value :=
  match v with
  | Arr l => outs <- filterM f l ;; Ok (Arr outs)
  | _ => Throw TypeError
  end.

(** [a === b] for two strings. *)
Definition strict_eq_strings (a b : jsstring) : value :=
  Bool (jsstring_eqb a b).

(** The statistics of the batch example:
    [flattenedCountries.filter(c => typeof c.population === 'number')
                       .map(c => c.population)]. *)
Definition validPopulations (flattenedCountries : value) : result value :=
  withPopulation <-
    Array_filter
      (fun c => p <- Get c (lit "population") ;;
                Ok (strict_eq_strings (typeof p) (lit "number")))
      flattenedCountries ;;
  Array_map (fun c => Get c (lit "population")) withPopulation.

(** [ToPrimitive], as the operator [+] applies it: strings, numbers and the
    other primitives are left alone; an array or object is converted by
    [valueOf], which is [Object.prototype.valueOf] or an own data property
    and yields no primitive, and then by [toString]. *)
Definition ToPrimitive (v : value) : result value :=
  match v with
  | Arr _ | Obj _ => s <- ToString v ;; Ok (Str s)
  | _ => Ok v
  end.

(** [ToNumber] on [undefined], [null], booleans and numbers.  ([add]
    passes it nothing else; strings are concatenated before.) *)
Definition ToNumber_primitive (v : value) : number :=
  match v with
  | Null | Bool false => S754_zero false
  | Bool true => number_of_Z 1
  | Num x => x
  | _ => S754_nan
  end.

(** [a + b]: concatenation when either operand is a string after
    [ToPrimitive], binary64 addition otherwise. *)
Definition add (a b : value) : result value :=
  lprim <- ToPrimitive a ;;
  rprim <- ToPrimitive b ;;
  if is_string lprim || is_string rprim
  then
    lstr <- ToString lprim ;;
    rstr <- ToString rprim ;;
    Ok (Str (lstr ++ rstr))
  else
    Ok (Num (SFadd prec emax (ToNumber_primitive lprim)
               (ToNumber_primitive rprim))).

Fixpoint foldM {A B} (f : B -> A -> result B) (l : list A) (acc : B)
  : result B :=
  match l with
  | [] => Ok acc
  | a :: l' => acc' <- f acc a ;; foldM f l' acc'
  end.

(** [v.reduce(f, initial)]: only arrays have the method. *)
Definition Array_reduce (f : value -> value -> result value) (initial : value)
           (v : value) : result value :=
  match v with
  | Arr l => foldM f l initial
  | _ => Throw TypeError
  end.

(** [validPopulations.reduce((sum, pop) => sum + pop, 0)] *)
Definition totalPopulation (populations : value) : result value :=
  Array_reduce (fun sum pop => add sum pop) (Num (number_of_Z 0))
    populations.

(** [m * 2^e] is the integer [z], for an integer significand [m]. *)
Definition scaled (m e z : Z) : Prop :=
  (0 <= e /\ z = m * 2 ^ e) \/ (e < 0 /\ m = z * 2 ^ (- e)).

(** The number [x] is the natural number [z]. *)
Definition natural (x : number) (z : Z) : Prop :=
  match x with
  | S754_zero _ => z = 0
  | S754_finite false m e => integral m e z
  | _ => False
  end.

(** What the examples print for a country: [formatNumber(c.population)]
    and [formatNumber(c.area)] of a flattened country [c]. *)
Definition displayed (c : value) (p : jsstring) : result value :=
  x <- Get c p ;; formatNumber x.

(** The seven paths [flattenCountryFields] reads. *)
Definition same_sources (v w : value) : Prop :=
  read (read v (lit "name")) (lit "common")
  = read (read w (lit "name")) (lit "common")
  /\ read v (lit "region") = read w (lit "region")
  /\ read (read v (lit "capital")) (lit "0")
     = read (read w (lit "capital")) (lit "0")
  /\ read v (lit "languages") = read w (lit "languages")
  /\ read v (lit "population") = read w (lit "population")
  /\ read v (lit "area") = read w (lit "area")
  /\ read (read v (lit "flags")) (lit "png")
     = read (read w (lit "flags")) (lit "png").

(** The top-level property names the module reads. *)
Definition top_level_names : list jsstring :=
  [ lit "name"; lit "region"; lit "capital"; lit "languages";
    lit "population"; lit "area"; lit "flags" ].

(** The text [join] contributes for a value that is a string, [undefined]
    or [null]. *)
Definition piece (x : value) : jsstring :=
  match x with
  | Str s => s
  | _ => []
  end.

(** The multilingual record of example-usage.js, with two of the fields
    of countries.json the module does not read. *)
Definition switzerland : value :=
  Obj [ (lit "name",
         Obj [ (lit "common", Str (lit "Switzerland"));
               (lit "official", Str (lit "Swiss Confederation")) ]);
        (lit "cca2", Str (lit "CH"));
        (lit "region", Str (lit "Europe"));
        (lit "capital", Arr [ Str (lit "Bern") ]);
        (lit "languages",
         Obj [ (lit "fra", Str (lit "French"));
               (lit "gsw", Str (lit "Swiss German"));
               (lit "ita", Str (lit "Italian"));
               (lit "roh", Str (lit "Romansh")) ]);
        (lit "population", Num (number_of_Z 8654622));
        (lit "area", Num (number_of_Z 41284));
        (lit "flags",
         Obj [ (lit "png", Str (lit "https://flagcdn.com/w320/ch.png")) ]) ].

(** The record of an input with everything the module does not read taken
    out, wherever it stands: the top-level properties other than the seven,
    the properties of [name] other than [common], the properties of [flags]
    other than [png], and the elements of [capital] after the first. *)
Definition is_one_of (names : list jsstring) (k : jsstring) : bool :=
  existsb (jsstring_eqb k) names.

Definition filter_props (names : list jsstring)
           (props : list (jsstring * value)) : list (jsstring * value) :=
  filter (fun kv => is_one_of names (fst kv)) props.

Definition update_props (k : jsstring) (f : value -> value)
           (props : list (jsstring * value)) : list (jsstring * value) :=
  map (fun kv => if jsstring_eqb (fst kv) k then (fst kv, f (snd kv)) else kv)
      props.

Definition only_properties (names : list jsstring) (v : value) : value :=
  match v with
  | Obj props => Obj (filter_props names props)
  | _ => v
  end.

Definition first_only (v : value) : value :=
  match v with
  | Arr l => Arr (firstn 1 l)
  | _ => v
  end.

Definition pruned (v : value) : value :=
  match v with
  | Obj props =>
      Obj (update_props (lit "capital") first_only
             (update_props (lit "flags") (only_properties [ lit "png" ])
                (update_props (lit "name") (only_properties [ lit "common" ])
                   (filter_props top_level_names props))))
  | _ => v
  end.

(** The sample record of example-usage.js. *)
Definition sampleCountry : value :=
  Obj [ (lit "name",
         Obj [ (lit "common", Str (lit "France"));
               (lit "official", Str (lit "French Republic")) ]);
        (lit "region", Str (lit "Europe"));
        (lit "capital", Arr [ Str (lit "Paris") ]);
        (lit "languages", Obj [ (lit "fra", Str (lit "French")) ]);
        (lit "population", Num (number_of_Z 67391582));
        (lit "area", Num (number_of_Z 551695));
        (lit "flags",
         Obj [ (lit "png", Str (lit "https://flagcdn.com/w320/fr.png"));
               (lit "svg", Str (lit "https://flagcdn.com/fr.svg")) ]) ].

(** * Induction on values *)

Section ValueInduction.

Variable P : value -> Prop.

Hypothesis P_undefined : P Undefined.
Hypothesis P_null : P Null.
Hypothesis P_bool : forall b, P (Bool b).
Hypothesis P_num : forall x, P (Num x).
Hypothesis P_str : forall s, P (Str s).
Hypothesis P_arr : forall l, Forall P l -> P (Arr l).
Hypothesis P_obj : forall props, Forall (fun kv => P (snd kv)) props -> P (Obj props).

Fixpoint value_ind (v : value) : P v :=
  match v with
  | Undefined => P_undefined
  | Null => P_null
  | Bool b => P_bool b
  | Num x => P_num x
  | Str s => P_str s
  | Arr l =>
      P_arr l
        (list_ind (Forall P) (Forall_nil P)
           (fun x l' IH => Forall_cons x (value_ind x) IH) l)
  | Obj props =>
      P_obj props
        (list_ind (Forall (fun kv => P (snd kv))) (Forall_nil _)
           (fun kv l' IH => Forall_cons kv (value_ind (snd kv)) IH) props)
  end.

End ValueInduction.

(** * Sanity checks: the documented examples *)

Example flatten_france :
  flattenCountryFields france
  = Ok (flat_record (Str (lit "France")) (Str (lit "Europe"))
          (Str (lit "Paris")) (Str (lit "French"))
          (Num (number_of_Z 67391582)) (Num (number_of_Z 551695))
          (Str (lit "https://flagcdn.com/w320/fr.png"))).
Proof. vm_compute. reflexivity. Qed.

Example flatten_antarctica :
  flattenCountryFields antarctica
  = Ok (flat_record (Str (lit "Antarctica")) NA NA NA NA
          (Num (number_of_Z 14000000)) (Str [])).
Proof. vm_compute. reflexivity. Qed.

Example number_to_string_samples :
  is_binary64 (number_of_Z 67391582) = true
  /\ Number_toString (number_of_Z 67391582) = lit "67391582"
  /\ Number_toString (S754_finite true 6755399441055744 (-52)) = lit "-1.5"
  /\ Number_toString (S754_finite false 7205759403792794 (-56)) = lit "0.1"
  /\ Number_toString (S754_finite false 5404319552844596 (-54))
     = lit "0.30000000000000004"
  /\ Number_toString (S754_finite false 7629394531250000 17) = lit "1e+21"
  /\ Number_toString (S754_finite false 1 (-1074)) = lit "5e-324".
Proof. vm_compute. repeat split. Qed.

Example number_to_locale_string_samples :
  Number_toLocaleString (S754_finite false 5429686605511341 (-42))
  = lit "1,234.568"
  /\ Number_toLocaleString (S754_finite true 5429388417957888 (-42))
     = lit "-1,234.5"
  /\ Number_toLocaleString (number_of_Z 8654622) = lit "8,654,622"
  /\ Number_toLocaleString (number_of_Z 999) = lit "999"
  /\ Number_toLocaleString (S754_zero true) = lit "-0"
  /\ Number_toLocaleString (S754_finite false 4503599627370496 8)
     = lit "1,152,921,504,606,847,000"
  /\ Number_toLocaleString (S754_finite false 4505851427184181 (-52))
     = lit "1.001".
Proof. vm_compute. repeat split. Qed.

Example text_of_mixed_values :
  formatLanguages
    (Obj [ (lit "a", Num (number_of_Z 1234));
           (lit "b", Arr [ Null; Bool true; Obj [] ]) ])
  = Ok (Str (lit "1234, ,true,[object Object]"))
  /\ formatNumber (Arr [ Num (number_of_Z 1234); Null; Str (lit "a") ])
     = Ok (Str (lit "1,234,,a")).
Proof. vm_compute. split; reflexivity. Qed.

(** * Basic facts about the language operations *)

Lemma bind_Ok {A B} (a : A) (k : A -> result B) : bind (Ok a) k = k a.
Proof. reflexivity. Qed.

(** The guard of [flattenCountryFields] and [formatLanguages] lets through
    exactly the arrays and the objects. *)
Lemma guard_structured (v : value) :
  negb (ToBoolean v) || negb (jsstring_eqb (typeof v) (lit "object"))
  = negb (is_structured v).
Proof.
  destruct v as [| |[|]|[| | |]|[|c s]|l|props]; reflexivity.
Qed.

Lemma Get_opt_read (v : value) (p : jsstring) : Get_opt v p = Ok (read v p).
Proof.
  unfold read.
  destruct v as [| |b|x|s|l|props]; unfold Get_opt; simpl; try reflexivity.
  - destruct (array_index p) as [i|];
      [destruct (nth_error s i) | destruct (jsstring_eqb p (lit "length"))];
      reflexivity.
  - destruct (array_index p) as [i|];
      [destruct (nth_error l i) | destruct (jsstring_eqb p (lit "length"))];
      reflexivity.
  - destruct (own_property props p); reflexivity.
Qed.

Lemma Get_read (v : value) (p : jsstring) :
  nullish v = false -> Get v p = Ok (read v p).
Proof.
  intros Hv. rewrite <- Get_opt_read. unfold Get_opt. rewrite Hv. reflexivity.
Qed.

Lemma structured_not_nullish (v : value) :
  is_structured v = true -> nullish v = false.
Proof. destruct v; simpl; intros H; try discriminate; reflexivity. Qed.

(** Outside arrays and objects none of the properties the module reads is
    there. *)
Lemma read_unstructured (v : value) (p : jsstring) :
  is_structured v = false ->
  array_index p = None -> jsstring_eqb p (lit "length") = false ->
  read v p = Undefined.
Proof.
  intros Hv Hi Hl. unfold read, Get_opt.
  destruct v as [| |b|x|s|l|props]; simpl in *; try reflexivity;
    try discriminate.
  rewrite Hi, Hl. reflexivity.
Qed.

Lemma present_or_NA_read (c : value) (p : jsstring) :
  nullish c = false -> present_or_NA c p = Ok (keep (read c p)).
Proof.
  intros Hc. unfold present_or_NA, keep.
  rewrite (Get_read c p Hc). simpl.
  destruct (read c p); reflexivity.
Qed.

(** * [flattenCountryFields], field by field *)

Lemma formatLanguages_unstructured (v : value) :
  is_structured v = false -> formatLanguages v = Ok NA.
Proof.
  intros Hv. unfold formatLanguages.
  rewrite guard_structured, Hv. reflexivity.
Qed.

Lemma flatten_unstructured (v : value) :
  is_structured v = false -> flattenCountryFields v = Ok absent_record.
Proof.
  intros Hv. unfold flattenCountryFields.
  rewrite guard_structured, Hv. reflexivity.
Qed.

Lemma flatten_fields (v : value) :
  flattenCountryFields v
  = langs <- formatLanguages (read v (lit "languages")) ;;
    Ok (flattened v langs).
Proof.
  destruct (is_structured v) eqn:Hv.
  - pose proof (structured_not_nullish v Hv) as Hn.
    unfold flattenCountryFields.
    rewrite guard_structured, Hv. simpl negb. cbv iota.
    rewrite !(Get_read v _ Hn), !present_or_NA_read by exact Hn.
    rewrite !bind_Ok, !Get_opt_read, !bind_Ok.
    destruct (formatLanguages (read v (lit "languages"))); reflexivity.
  - rewrite (flatten_unstructured v Hv).
    unfold flattened.
    rewrite !(read_unstructured v _ Hv) by reflexivity.
    reflexivity.
Qed.

Lemma read_flattened (v langs : value) :
  read (flattened v langs) (lit "name")
  = or_else (read (read v (lit "name")) (lit "common")) NA
  /\ read (flattened v langs) (lit "region") = or_else (read v (lit "region")) NA
  /\ read (flattened v langs) (lit "capital")
     = or_else (read (read v (lit "capital")) (lit "0")) NA
  /\ read (flattened v langs) (lit "languages") = langs
  /\ read (flattened v langs) (lit "population")
     = keep (read v (lit "population"))
  /\ read (flattened v langs) (lit "area") = keep (read v (lit "area"))
  /\ read (flattened v langs) (lit "flagUrl")
     = or_else (read (read v (lit "flags")) (lit "png")) (Str []).
Proof. repeat split. Qed.

(** Whenever the languages of the input format, the call returns
    [flattened]. *)
Lemma flatten_returns (v langs : value) :
  formatLanguages (read v (lit "languages")) = Ok langs ->
  flattenCountryFields v = Ok (flattened v langs).
Proof. intros H. rewrite flatten_fields, H. reflexivity. Qed.

Ltac flat_reads :=
  match goal with
  | |- context [read (flattened ?v ?l) _] =>
      let H := fresh "Hreads" in
      pose proof (read_flattened v l) as H;
      destruct H as (?Hname & ?Hregion & ?Hcapital & ?Hlanguages
                     & ?Hpopulation & ?Harea & ?HflagUrl)
  end.

(** * The claims *)

(** C1.  Every input that is not a non-null structured value ([undefined],
    [null], a boolean, a number, a string) is mapped to the fully absent
    record: [name], [region], [capital], [languages], [population] and
    [area] are the string "N/A" and [flagUrl] is the empty string. *)
Theorem flatten_malformed_input (v : value) :
  is_structured v = false ->
  flattenCountryFields v
  = Ok (flat_record (Str (lit "N/A")) (Str (lit "N/A")) (Str (lit "N/A"))
          (Str (lit "N/A")) (Str (lit "N/A")) (Str (lit "N/A"))
          (Str [])).
Proof. exact (flatten_unstructured v). Qed.

Lemma flatten_malformed_input_witness :
  flattenCountryFields (Str (lit "France"))
  = Ok (flat_record (Str (lit "N/A")) (Str (lit "N/A")) (Str (lit "N/A"))
          (Str (lit "N/A")) (Str (lit "N/A")) (Str (lit "N/A"))
          (Str [])).
Proof. apply (flatten_malformed_input (Str (lit "France"))). reflexivity. Defined.

(** C2.  For every structured record, [population] (and likewise [area])
    of the output is the source value itself when that is neither
    [undefined] nor [null], and the string "N/A" otherwise; a population of
    0 stays the number 0. *)
Theorem population_area_rule (v langs : value) :
  is_structured v = true ->
  formatLanguages (read v (lit "languages")) = Ok langs ->
  exists out,
    flattenCountryFields v = Ok out
    /\ (is_undefined (read v (lit "population")) = false ->
        is_null (read v (lit "population")) = false ->
        read out (lit "population") = read v (lit "population"))
    /\ (is_undefined (read v (lit "population"))
        || is_null (read v (lit "population")) = true ->
        read out (lit "population") = Str (lit "N/A"))
    /\ (is_undefined (read v (lit "area")) = false ->
        is_null (read v (lit "area")) = false ->
        read out (lit "area") = read v (lit "area"))
    /\ (is_undefined (read v (lit "area"))
        || is_null (read v (lit "area")) = true ->
        read out (lit "area") = Str (lit "N/A"))
    /\ (read v (lit "population") = Num (number_of_Z 0) ->
        read out (lit "population") = Num (number_of_Z 0)
        /\ read out (lit "population") <> Str (lit "N/A")).
Proof.
  intros _ Hl. exists (flattened v langs).
  split; [exact (flatten_returns v langs Hl)|].
  flat_reads. rewrite Hpopulation, Harea. unfold keep, nullish.
  repeat split.
  - intros H1 H2. rewrite H1, H2. reflexivity.
  - intros H. rewrite H. reflexivity.
  - intros H1 H2. rewrite H1, H2. reflexivity.
  - intros H. rewrite H. reflexivity.
  - rewrite H. reflexivity.
  - rewrite H. discriminate.
Qed.

Lemma population_area_rule_witness :
  exists out,
    flattenCountryFields
      (Obj [ (lit "population", Num (number_of_Z 0));
             (lit "area", Num (number_of_Z (-7))) ]) = Ok out
    /\ read out (lit "population") = Num (number_of_Z 0)
    /\ read out (lit "area") = Num (number_of_Z (-7)).
Proof.
  destruct (population_area_rule
              (Obj [ (lit "population", Num (number_of_Z 0));
                     (lit "area", Num (number_of_Z (-7))) ])
              NA eq_refl eq_refl)
    as (out & Hout & Hpop & _ & Harea & _ & _).
  exists out. split; [exact Hout|].
  split; [exact (Hpop eq_refl eq_refl) | exact (Harea eq_refl eq_refl)].
Defined.

(** C9.  For every structured record whose [capital] is a non-empty string
    rather than a sequence, the output's [capital] is the first code unit
    of that string: not "N/A", and not the whole string when that is
    longer. *)
Theorem capital_string_first_unit
  (v langs : value) (c : code_unit) (rest : jsstring) :
  is_structured v = true ->
  read v (lit "capital") = Str (c :: rest) ->
  formatLanguages (read v (lit "languages")) = Ok langs ->
  exists out,
    flattenCountryFields v = Ok out
    /\ read out (lit "capital") = Str [c]
    /\ read out (lit "capital") <> Str (lit "N/A")
    /\ (rest <> [] -> read out (lit "capital") <> Str (c :: rest)).
Proof.
  intros _ Hc Hl. exists (flattened v langs).
  split; [exact (flatten_returns v langs Hl)|].
  flat_reads. rewrite Hcapital, Hc.
  repeat split.
  - discriminate.
  - intros Hrest Heq. apply Hrest. unfold or_else in Heq. simpl in Heq.
    inversion Heq. reflexivity.
Qed.

Lemma capital_string_first_unit_witness :
  exists out,
    flattenCountryFields
      (Obj [ (lit "name", Obj [ (lit "common", Str (lit "France")) ]);
             (lit "capital", Str (lit "Paris")) ]) = Ok out
    /\ read out (lit "capital") = Str (lit "P").
Proof.
  destruct (capital_string_first_unit
              (Obj [ (lit "name", Obj [ (lit "common", Str (lit "France")) ]);
                     (lit "capital", Str (lit "Paris")) ])
              NA 80%N (lit "aris") eq_refl eq_refl eq_refl)
    as (out & Hout & Hcap & _).
  exists out. split; [exact Hout | exact Hcap].
Defined.

(** ** [formatLanguages] *)

Lemma mapM_join_strings (ss : list jsstring) :
  mapM join_element (map Str ss) = Ok ss.
Proof.
  induction ss as [|s ss IH]; simpl; [reflexivity|].
  rewrite IH. reflexivity.
Qed.

Lemma Array_join_strings (ss : list jsstring) (sep : jsstring) :
  Array_join (map Str ss) sep = Ok (intercalate sep ss).
Proof. unfold Array_join. rewrite mapM_join_strings. reflexivity. Qed.

Lemma formatLanguages_values (v : value) (x : value) (l : list value) :
  is_structured v = true ->
  Object_values v = Ok (x :: l) ->
  formatLanguages v = s <- Array_join (x :: l) (lit ", ") ;; Ok (Str s).
Proof.
  intros Hv Hl. unfold formatLanguages.
  rewrite guard_structured, Hv, Hl. reflexivity.
Qed.

(** C4.  [formatLanguages] returns "N/A" when its input is not a non-null
    structured mapping and when the mapping has no entries; for a non-empty
    mapping it returns the values, in the mapping's own order, joined with
    ", ". *)
Theorem formatLanguages_rule :
  (forall v, is_structured v = false ->
             formatLanguages v = Ok (Str (lit "N/A")))
  /\ formatLanguages (Obj []) = Ok (Str (lit "N/A"))
  /\ (forall props, props <> [] ->
        formatLanguages (Obj props)
        = s <- Array_join (map snd props) (lit ", ") ;; Ok (Str s))
  /\ (forall entries : list (jsstring * jsstring), entries <> [] ->
        formatLanguages (Obj (map (fun kv => (fst kv, Str (snd kv))) entries))
        = Ok (Str (intercalate (lit ", ") (map snd entries))))
  /\ formatLanguages (Obj [ (lit "a", Str (lit "X")); (lit "b", Str (lit "Y")) ])
     = Ok (Str (lit "X, Y"))
  /\ formatLanguages Null = Ok (Str (lit "N/A")).
Proof.
  split; [exact formatLanguages_unstructured|].
  split; [reflexivity|].
  split.
  { intros [|kv props] Hne; [contradiction Hne; reflexivity|].
    apply formatLanguages_values; reflexivity. }
  split.
  { intros [|kv entries] Hne; [contradiction Hne; reflexivity|].
    rewrite (formatLanguages_values _ (Str (snd kv))
               (map Str (map snd entries)));
      [ | reflexivity | simpl; rewrite !map_map; reflexivity ].
    change (Str (snd kv) :: map Str (map snd entries))
      with (map Str (map snd (kv :: entries))).
    rewrite Array_join_strings. reflexivity. }
  split; reflexivity.
Qed.

Lemma formatLanguages_rule_witness :
  formatLanguages (Num (number_of_Z 5)) = Ok (Str (lit "N/A"))
  /\ formatLanguages
       (Obj [ (lit "fra", Str (lit "French"));
              (lit "gsw", Str (lit "Swiss German"));
              (lit "ita", Str (lit "Italian"));
              (lit "roh", Str (lit "Romansh")) ])
     = Ok (Str (lit "French, Swiss German, Italian, Romansh")).
Proof.
  destruct formatLanguages_rule as (Hun & _ & _ & Hstr & _).
  split.
  - apply Hun. reflexivity.
  - apply (Hstr [ (lit "fra", lit "French"); (lit "gsw", lit "Swiss German");
                  (lit "ita", lit "Italian"); (lit "roh", lit "Romansh") ]).
    discriminate.
Defined.

(** C10.  An array is accepted by [formatLanguages] like a mapping: a
    non-empty array of strings yields its elements joined with ", ", the
    empty array yields "N/A". *)
Theorem formatLanguages_array :
  (forall ss : list jsstring, ss <> [] ->
     formatLanguages (Arr (map Str ss)) = Ok (Str (intercalate (lit ", ") ss)))
  /\ formatLanguages (Arr []) = Ok (Str (lit "N/A"))
  /\ formatLanguages (Arr [ Str (lit "English"); Str (lit "French") ])
     = Ok (Str (lit "English, French")).
Proof.
  split.
  { intros [|s ss] Hne; [contradiction Hne; reflexivity|].
    rewrite (formatLanguages_values _ (Str s) (map Str ss));
      [ | reflexivity | reflexivity ].
    change (Str s :: map Str ss) with (map Str (s :: ss)).
    rewrite Array_join_strings. reflexivity. }
  split; reflexivity.
Qed.

Lemma formatLanguages_array_witness :
  formatLanguages (Arr (map Str [ lit "Dutch"; lit "Frisian"; lit "Papiamento" ]))
  = Ok (Str (lit "Dutch, Frisian, Papiamento")).
Proof.
  apply (proj1 formatLanguages_array
           [ lit "Dutch"; lit "Frisian"; lit "Papiamento" ]).
  discriminate.
Defined.

(** ** [flattenCountriesArray] *)

Lemma mapM_Ok_Forall2 {A B} (f : A -> result B) (l : list A) (outs : list B) :
  mapM f l = Ok outs <-> Forall2 (fun a b => f a = Ok b) l outs.
Proof.
  revert outs. induction l as [|a l IH]; intros outs; simpl.
  - split.
    + intros H. inversion H. constructor.
    + intros H. inversion H. reflexivity.
  - split.
    + destruct (f a) as [b|e] eqn:Hb; simpl; [|discriminate].
      destruct (mapM f l) as [bs|e] eqn:Hbs; simpl; [|discriminate].
      intros H. inversion H. subst. constructor; [exact Hb|].
      apply IH. reflexivity.
    + intros H. inversion H as [|a' b l' bs Hb Hbs]. subst.
      rewrite Hb. simpl. apply IH in Hbs. rewrite Hbs. reflexivity.
Qed.

Lemma Forall2_nth_error {A B} (R : A -> B -> Prop) (l : list A) (l' : list B) :
  Forall2 R l l' ->
  forall i a, nth_error l i = Some a ->
              exists b, nth_error l' i = Some b /\ R a b.
Proof.
  induction 1 as [|x y l l' Hxy _ IH]; intros [|i] a Ha; simpl in *;
    try discriminate.
  - inversion Ha. subst. exists y. split; [reflexivity | exact Hxy].
  - apply IH. exact Ha.
Qed.

(** C6.  [flattenCountriesArray] returns the empty array for every input
    that is not an array; for an array it returns the array of the
    [flattenCountryFields] results of the elements, position by position,
    hence of the same length. *)
Theorem flattenCountriesArray_rule :
  (forall v, Array_isArray v = false -> flattenCountriesArray v = Ok (Arr []))
  /\ (forall l r,
        flattenCountriesArray (Arr l) = Ok r
        <-> exists outs,
              r = Arr outs
              /\ Forall2 (fun c o => flattenCountryFields c = Ok o) l outs)
  /\ (forall l outs,
        flattenCountriesArray (Arr l) = Ok (Arr outs) ->
        List.length outs = List.length l
        /\ forall i c, nth_error l i = Some c ->
                       exists o, nth_error outs i = Some o
                                 /\ flattenCountryFields c = Ok o).
Proof.
  assert (Hiff : forall l r,
             flattenCountriesArray (Arr l) = Ok r
             <-> exists outs,
                   r = Arr outs
                   /\ Forall2 (fun c o => flattenCountryFields c = Ok o) l outs).
  { intros l r. unfold flattenCountriesArray. simpl. split.
    - destruct (mapM _ l) as [outs|e] eqn:Hm; simpl; [|discriminate].
      intros H. inversion H. exists outs. split; [reflexivity|].
      apply mapM_Ok_Forall2. exact Hm.
    - intros (outs & -> & HF).
      apply (mapM_Ok_Forall2 (fun country => flattenCountryFields country))
        in HF.
      rewrite HF. reflexivity. }
  split.
  { intros v Hv. unfold flattenCountriesArray. rewrite Hv. reflexivity. }
  split; [exact Hiff|].
  intros l outs H. apply Hiff in H. destruct H as (outs' & Heq & HF).
  inversion Heq. subst outs'. split.
  - symmetry. exact (Forall2_length HF).
  - exact (Forall2_nth_error _ _ _ HF).
Qed.

Lemma flattenCountriesArray_rule_witness :
  flattenCountriesArray (Str (lit "France")) = Ok (Arr [])
  /\ flattenCountriesArray (Arr [ antarctica; Null ])
     = Ok (Arr [ flat_record (Str (lit "Antarctica")) NA NA NA NA
                   (Num (number_of_Z 14000000)) (Str []);
                 absent_record ]).
Proof.
  destruct flattenCountriesArray_rule as (Hnot & Hiff & _).
  split.
  - apply Hnot. reflexivity.
  - apply Hiff. eexists. split; [reflexivity|].
    repeat constructor.
Defined.

(** ** [formatNumber] *)

(** ** Exact rounding of small integers

    [binary_round] only shifts the significand of an integer below [2^53]
    and loses nothing; the canonical representation it returns has an
    exponent that is not positive. *)

Lemma digits_bounds (m : positive) :
  2 ^ (Zpos (digits2_pos m) - 1) <= Zpos m < 2 ^ Zpos (digits2_pos m).
Proof.
  induction m as [p IH | p IH |]; simpl digits2_pos.
  - rewrite Pos2Z.inj_succ.
    replace (Z.succ (Zpos (digits2_pos p)) - 1) with (Z.succ (Zpos (digits2_pos p) - 1)) by lia.
    rewrite !Z.pow_succ_r by lia. lia.
  - rewrite Pos2Z.inj_succ.
    replace (Z.succ (Zpos (digits2_pos p)) - 1) with (Z.succ (Zpos (digits2_pos p) - 1)) by lia.
    rewrite !Z.pow_succ_r by lia. lia.
  - simpl. lia.
Qed.

Lemma digits_unique (m : positive) (k : Z) :
  2 ^ (k - 1) <= Zpos m < 2 ^ k -> Zpos (digits2_pos m) = k.
Proof.
  intros [Hlo Hhi]. pose proof (digits_bounds m) as [Dlo Dhi].
  set (d := Zpos (digits2_pos m)) in *.
  assert (0 < k).
  { destruct (Z_lt_le_dec 0 k); [assumption|].
    assert (2 ^ k <= 2 ^ 0) by (apply Z.pow_le_mono_r; lia).
    simpl in *. lia. }
  destruct (Z_lt_le_dec d k) as [Hdk|Hdk].
  - assert (2 ^ d <= 2 ^ (k - 1)) by (apply Z.pow_le_mono_r; lia). lia.
  - destruct (Z_lt_le_dec k d) as [Hkd|Hkd]; [|lia].
    assert (2 ^ k <= 2 ^ (d - 1)) by (apply Z.pow_le_mono_r; lia). lia.
Qed.

Lemma shift_value (m k : positive) :
  Zpos (Pos.iter xO m k) = Zpos m * 2 ^ Zpos k.
Proof.
  induction k as [|k IH] using Pos.peano_ind.
  - simpl. lia.
  - rewrite Pos.iter_succ, Pos2Z.inj_succ, Z.pow_succ_r by lia.
    rewrite Pos2Z.inj_xO, IH. lia.
Qed.

Lemma iter_pos_iter {A} (f : A -> A) (n : positive) (x : A) :
  iter_pos f n x = Pos.iter f x n.
Proof.
  revert x. induction n as [n IH | n IH |]; intros x; simpl.
  - rewrite !IH. rewrite <- !Pos.iter_swap. reflexivity.
  - rewrite !IH. reflexivity.
  - reflexivity.
Qed.

Lemma shr_exact (q n : positive) :
  iter_pos shr_1 n (Build_shr_record (Zpos (Pos.iter xO q n)) false false)
  = Build_shr_record (Zpos q) false false.
Proof.
  rewrite iter_pos_iter.
  induction n as [|n IH] using Pos.peano_ind.
  - reflexivity.
  - rewrite Pos.iter_succ. rewrite Pos.iter_succ, <- Pos.iter_swap.
    simpl shr_1. exact IH.
Qed.

Ltac std_Z :=
  change IntDef.Z.add with Z.add in *;
  change IntDef.Z.sub with Z.sub in *;
  change IntDef.Z.leb with Z.leb in *;
  change IntDef.Z.max with Z.max in *;
  change IntDef.Z.min with Z.min in *.

Ltac step_round :=
  cbv beta iota delta [shr shr_record_of_loc loc_of_shr_record
                        round_nearest_even shr_m Zdigits2].

Lemma pow2_lt_inv (a b : Z) : 0 <= b -> 2 ^ a < 2 ^ b -> a < b.
Proof.
  intros Hb H. destruct (Z_lt_le_dec a b) as [|Hle]; [assumption|].
  assert (2 ^ b <= 2 ^ a) by (apply Z.pow_le_mono_r; lia). lia.
Qed.

Lemma scaled_digits (M : positive) (E Z : Z) :
  scaled (Zpos M) E Z -> Z < 2 ^ 53 ->
  0 < Z /\ Zpos (digits2_pos M) + E <= 53.
Proof.
  intros HS HZ. pose proof (digits_bounds M) as [Dlo Dhi].
  set (d := Zpos (digits2_pos M)) in *.
  assert (Hd : 0 < d) by (unfold d; lia).
  destruct HS as [[HE ->] | [HE HM]].
  - assert (0 < 2 ^ E) by (apply Z.pow_pos_nonneg; lia).
    split; [nia|].
    assert (2 ^ (d - 1 + E) < 2 ^ 53).
    { rewrite Z.pow_add_r by lia. nia. }
    apply pow2_lt_inv in H0; lia.
  - assert (0 < 2 ^ (- E)) by (apply Z.pow_pos_nonneg; lia).
    split; [nia|].
    assert (2 ^ (d - 1) < 2 ^ (53 - E)).
    { replace (53 - E) with (53 + - E) by lia. rewrite Z.pow_add_r by lia.
      assert (0 < 2 ^ 53) by (apply Z.pow_pos_nonneg; lia). nia. }
    apply pow2_lt_inv in H0; lia.
Qed.

Lemma binary_round_aux_canonical (m : positive) (e : Z) :
  fexp prec emax (Zpos (digits2_pos m) + e) = e -> e <= emax - prec ->
  binary_round_aux prec emax false (Zpos m) e loc_Exact = S754_finite false m e.
Proof.
  intros Hc He. unfold binary_round_aux, shr_fexp. simpl Zdigits2. std_Z.
  rewrite Hc, Z.sub_diag. step_round. std_Z.
  rewrite Hc, Z.sub_diag. step_round.
  apply Z.leb_le in He. rewrite He. reflexivity.
Qed.

Lemma binary_round_exact (M : positive) (E Z : Z) :
  scaled (Zpos M) E Z -> Z < 2 ^ 53 ->
  exists m e,
    binary_round prec emax false M E = S754_finite false m e
    /\ integral m e Z
    /\ e <= 0.
Proof.
  intros HS HZ. destruct (scaled_digits M E Z HS HZ) as [Hpos Hd].
  unfold binary_round.
  set (d := Zpos (digits2_pos M)) in *.
  set (e0 := fexp prec emax (d + E)).
  assert (He0 : e0 = Z.max (d + E - 53) (-1074)) by reflexivity.
  assert (He0' : e0 <= 0) by lia.
  unfold shl_align. std_Z. fold d. fold e0.
  destruct (e0 - E) as [|n|k] eqn:Hdiff.
  - (* e0 = E *)
    exists M, E. split; [|split; [|lia]].
    + apply binary_round_aux_canonical; [fold d; fold e0; lia | unfold emax, prec; lia].
    + exact HS.
  - (* E < e0: shift right by n *)
    assert (HE : E < 0) by lia.
    destruct HS as [[HE' _] | [_ HM]]; [lia|].
    (* M = Z * 2^(-E) = (Z * 2^(-e0)) * 2^n *)
    assert (Hq : exists q, Zpos q = Z * 2 ^ (- e0)).
    { assert (0 < Z * 2 ^ (- e0)).
      { apply Z.mul_pos_pos; [lia | apply Z.pow_pos_nonneg; lia]. }
      destruct (Z * 2 ^ (- e0)) as [|q|q] eqn:Hq; try lia. exists q. reflexivity. }
    destruct Hq as [q Hq].
    assert (HMq : M = Pos.iter xO q n).
    { apply Pos2Z.inj. rewrite shift_value, HM, Hq.
      replace (- E) with (- e0 + Zpos n) by lia.
      rewrite Z.pow_add_r by lia. ring. }
    assert (Hdq : Zpos (digits2_pos q) = d - Zpos n).
    { apply digits_unique.
      pose proof (digits_bounds M) as [Dlo Dhi]. fold d in Dlo, Dhi.
      rewrite HMq, shift_value in Dlo, Dhi.
      assert (0 < 2 ^ Zpos n) by (apply Z.pow_pos_nonneg; lia).
      assert (Hdn : 0 <= d - Zpos n - 1 \/ d - Zpos n - 1 < 0) by lia.
      split.
      - destruct Hdn as [Hdn|Hdn].
        + replace (d - 1) with (d - Zpos n - 1 + Zpos n) in Dlo by lia.
          rewrite Z.pow_add_r in Dlo by lia. nia.
        + rewrite Z.pow_neg_r by lia. lia.
      - destruct (Z_lt_le_dec (d - Zpos n) 0).
        + exfalso.
          assert (2 ^ d <= 2 ^ Zpos n) by (apply Z.pow_le_mono_r; lia). nia.
        + replace d with (d - Zpos n + Zpos n) in Dhi by lia.
          rewrite Z.pow_add_r in Dhi by lia. nia. }
    exists q, e0. split; [|split; [|lia]].
    + unfold binary_round_aux at 1, shr_fexp at 1. simpl Zdigits2. std_Z. fold d. fold e0.
      rewrite Hdiff. unfold shr_record_of_loc, shr.
      rewrite HMq, shr_exact. step_round.
      unfold shr_fexp. step_round. std_Z.
      replace (E + Zpos n) with e0 by lia.
      assert (Hc : fexp prec emax (Zpos (digits2_pos q) + e0) = e0).
      { rewrite Hdq. replace (d - Zpos n + e0) with (d + E) by lia. reflexivity. }
      rewrite Hc, Z.sub_diag. step_round.
      assert (Hle : (e0 <=? emax - prec) = true) by (apply Z.leb_le; unfold emax, prec; lia).
      rewrite Hle. reflexivity.
    + unfold integral.
      destruct (Z_lt_le_dec e0 0); [right; split; [lia | exact Hq]|].
      left. split; [lia|]. assert (Hz : e0 = 0) by lia.
      rewrite Hq, Hz. simpl. lia.
  - (* e0 < E: shift left by k *)
    exists (Pos.iter xO M k), e0.
    assert (Hval : Zpos (Pos.iter xO M k) = Zpos M * 2 ^ (E - e0)).
    { rewrite shift_value. replace (E - e0) with (Zpos k) by lia. reflexivity. }
    assert (Hdig : Zpos (digits2_pos (Pos.iter xO M k)) = d + Zpos k).
    { apply digits_unique. rewrite shift_value.
      pose proof (digits_bounds M) as [Dlo Dhi]. fold d in Dlo, Dhi.
      assert (0 < 2 ^ Zpos k) by (apply Z.pow_pos_nonneg; lia).
      replace (d + Zpos k - 1) with (d - 1 + Zpos k) by lia.
      rewrite !Z.pow_add_r by lia. nia. }
    split; [|split; [|lia]].
    + apply binary_round_aux_canonical; [|unfold emax, prec; lia].
      rewrite Hdig. replace (d + Zpos k + e0) with (d + E) by lia. reflexivity.
    + unfold integral. rewrite Hval.
      assert (0 < 2 ^ (E - e0)) by (apply Z.pow_pos_nonneg; lia).
      destruct (Z_lt_le_dec e0 0).
      * right. split; [lia|].
        destruct HS as [[HE ->] | [HE ->]].
        -- replace (- e0) with (E - e0 - E) by lia.
           replace (E - e0) with (E + - e0) at 1 by lia.
           rewrite Z.pow_add_r by lia.
           replace (E - e0 - E) with (- e0) by lia. ring.
        -- replace (- e0) with (- E + (E - e0)) by lia.
           rewrite Z.pow_add_r by lia. ring.
      * left. split; [lia|]. assert (Hz : e0 = 0) by lia.
        destruct HS as [[HE ->] | [HE _]]; [|lia].
        rewrite Hz, Z.sub_0_r, Z.pow_0_r. lia.
Qed.

(** A binary64 value is its own canonical representation. *)
Lemma canonical_of_binary64 (sign : bool) (m : positive) (e : Z) :
  is_binary64 (S754_finite sign m e) = true ->
  canonical m e = S754_finite false m e.
Proof.
  unfold is_binary64, valid_binary, bounded, canonical_mantissa. std_Z.
  intros H. apply andb_true_iff in H. destruct H as [Hc He].
  apply Z.eqb_eq in Hc. apply Z.leb_le in He.
  unfold canonical, binary_normalize, binary_round, shl_align. std_Z.
  rewrite Hc, Z.sub_diag.
  apply binary_round_aux_canonical; assumption.
Qed.

(** ** The shortest decimal of an integer below [2^53] is its numeral *)

Lemma digits_fuel_grows (fuel : nat) (z : Z) (acc : jsstring) :
  (List.length acc <= List.length (digits_fuel fuel z acc))%nat.
Proof.
  revert z acc. induction fuel as [|fuel IH]; intros z acc; simpl; [lia|].
  destruct (z <? 10); simpl; [lia|].
  specialize (IH (z / 10) (digit_unit (z mod 10) :: acc)). simpl in IH. lia.
Qed.

Lemma digits_fuel_at_most (k : nat) :
  forall (fuel : nat) (z : Z) (acc : jsstring),
    0 <= z < 10 ^ Z.of_nat (S k) ->
    (List.length (digits_fuel fuel z acc) <= List.length acc + S k)%nat.
Proof.
  induction k as [|k IH]; intros fuel z acc Hz.
  - destruct fuel as [|fuel]; simpl; [lia|].
    assert (Hlt : (z <? 10) = true) by (apply Z.ltb_lt; simpl in Hz; lia).
    rewrite Hlt. simpl. lia.
  - destruct fuel as [|fuel]; simpl digits_fuel; [lia|].
    destruct (z <? 10) eqn:Hlt; [simpl; lia|].
    apply Z.ltb_ge in Hlt.
    assert (Hdiv : 0 <= z / 10 < 10 ^ Z.of_nat (S k)).
    { split; [apply Z.div_pos; lia|].
      apply Z.div_lt_upper_bound; [lia|].
      rewrite <- Z.pow_succ_r by lia.
      replace (Z.succ (Z.of_nat (S k))) with (Z.of_nat (S (S k))) by lia. lia. }
    specialize (IH fuel (z / 10) (digit_unit (z mod 10) :: acc) Hdiv).
    simpl in IH. lia.
Qed.

Lemma decimal_length (z : Z) :
  0 <= z < 10 ^ 16 ->
  (1 <= List.length (decimal z) <= 16)%nat.
Proof.
  intros Hz. unfold decimal. split.
  - simpl digits_fuel.
    destruct (z <? 10); [simpl; lia|].
    pose proof (digits_fuel_grows (Z.to_nat (Z.log2 z)) (z / 10)
                  [digit_unit (z mod 10)]) as H.
    simpl in H. lia.
  - exact (digits_fuel_at_most 15 (S (Z.to_nat (Z.log2 z))) z [] Hz).
Qed.

Lemma strip_zeros_value (fuel : nat) :
  forall s p s' p',
    0 <= p ->
    strip_zeros_fuel fuel s p = (s', p') ->
    0 <= p' /\ s' * 10 ^ p' = s * 10 ^ p.
Proof.
  induction fuel as [|fuel IH]; intros s p s' p' Hp H; simpl in H.
  - inversion H. subst. split; [lia | reflexivity].
  - destruct ((0 <? s) && (s mod 10 =? 0)) eqn:Hc.
    + apply andb_true_iff in Hc. destruct Hc as [_ Hmod].
      apply Z.eqb_eq in Hmod.
      apply IH in H; [|lia]. destruct H as [Hp' Hv].
      split; [exact Hp'|]. rewrite Hv.
      rewrite Z.pow_add_r by lia.
      pose proof (Z.div_mod s 10 ltac:(lia)) as Hdm. rewrite Hmod in Hdm.
      rewrite Hdm at 2. change (10 ^ 1) with 10. ring.
    + inversion H. subst. split; [lia | reflexivity].
Qed.

Section ShortestInteger.

Variables (m : positive) (e z : Z).
Hypothesis Hz : integral m e z.
Hypothesis He : e <= 0.

Lemma sh_integer : sh e = 2 - e.
Proof.
  unfold sh. assert (H : (e <? 2) = true) by (apply Z.ltb_lt; lia).
  rewrite H. reflexivity.
Qed.

Lemma scale_integer : scale e = 4 * 2 ^ (- e).
Proof.
  unfold scale. rewrite sh_integer.
  replace (2 - e) with (2 + - e) by lia.
  rewrite Z.pow_add_r by lia. reflexivity.
Qed.

Lemma scale_at_least_4 : 4 <= scale e.
Proof.
  rewrite scale_integer.
  assert (0 < 2 ^ (- e)) by (apply Z.pow_pos_nonneg; lia). lia.
Qed.

Lemma Xs_integer : Xs m e = z * scale e.
Proof.
  unfold Xs. rewrite scale_integer, sh_integer.
  replace (e + (2 - e)) with 2 by lia. change (2 ^ 2) with 4.
  destruct Hz as [[He' ->] | [He' ->]].
  - assert (e = 0) by lia. subst e. simpl. lia.
  - ring.
Qed.

Lemma half_up_integer : half_up e = 2.
Proof.
  unfold half_up. rewrite sh_integer.
  replace (e + (2 - e) - 1) with 1 by lia. reflexivity.
Qed.

Lemma half_down_integer : 1 <= half_down m e <= 2.
Proof.
  unfold half_down. rewrite sh_integer.
  replace (e + (2 - e) - 2) with 0 by lia.
  replace (e + (2 - e) - 1) with 1 by lia.
  change (2 ^ 0) with 1. change (2 ^ 1) with 2.
  destruct (_ && _); lia.
Qed.

Lemma integer_positive : 0 < z.
Proof.
  destruct Hz as [[He' ->] | [He' Hm]].
  - assert (0 < 2 ^ e) by (apply Z.pow_pos_nonneg; lia). nia.
  - assert (0 < 2 ^ (- e)) by (apply Z.pow_pos_nonneg; lia). nia.
Qed.

Lemma reads_back_integer (s p : Z) :
  0 <= p -> (reads_back m e s p = true <-> s * 10 ^ p = z).
Proof.
  intros Hp. unfold reads_back.
  rewrite (Z.max_l p 0), (Z.max_r (- p) 0) by lia. change (10 ^ 0) with 1.
  rewrite Xs_integer, half_up_integer.
  pose proof half_down_integer as Hd. pose proof scale_at_least_4 as Hs.
  set (hd := half_down m e) in *. set (sc := scale e) in *.
  replace (s * sc * 10 ^ p) with (s * 10 ^ p * sc) by ring.
  set (D := s * 10 ^ p).
  split.
  - intros H.
    assert (Hb : (z * sc - hd) * 1 <= D * sc <= (z * sc + 2) * 1).
    { destruct (Z.even (Zpos m)); apply andb_true_iff in H; destruct H as [H1 H2].
      - apply Z.leb_le in H1. apply Z.leb_le in H2. lia.
      - apply Z.ltb_lt in H1. apply Z.ltb_lt in H2. lia. }
    destruct (Z.lt_trichotomy D z) as [Hlt | [Heq | Hgt]]; [|exact Heq|].
    + exfalso. assert ((D + 1) * sc <= z * sc) by (apply Z.mul_le_mono_nonneg_r; lia). lia.
    + exfalso. assert ((z + 1) * sc <= D * sc) by (apply Z.mul_le_mono_nonneg_r; lia). lia.
  - intros ->.
    destruct (Z.even (Zpos m)); apply andb_true_iff; split.
    + apply Z.leb_le. lia.
    + apply Z.leb_le. lia.
    + apply Z.ltb_lt. lia.
    + apply Z.ltb_lt. lia.
Qed.

Lemma candidate_integer (p s : Z) :
  0 <= p -> candidate m e p = Some s -> s * 10 ^ p = z.
Proof.
  intros Hp. unfold candidate. cbv zeta.
  set (lo := Xs m e * 10 ^ Z.max (- p) 0 / (scale e * 10 ^ Z.max p 0)).
  destruct (reads_back m e lo p) eqn:Hlo;
    destruct (reads_back m e (lo + 1) p) eqn:Hhi.
  - apply reads_back_integer in Hlo; [|exact Hp].
    apply reads_back_integer in Hhi; [|exact Hp].
    intros H.
    destruct (_ <? _) in H; [injection H as Hs; rewrite <- Hs; exact Hlo|].
    destruct (_ <? _) in H; [injection H as Hs; rewrite <- Hs; exact Hhi|].
    destruct (Z.even lo) in H; injection H as Hs; rewrite <- Hs; assumption.
  - apply reads_back_integer in Hlo; [|exact Hp].
    intros H. injection H as Hs. rewrite <- Hs. exact Hlo.
  - apply reads_back_integer in Hhi; [|exact Hp].
    intros H. injection H as Hs. rewrite <- Hs. exact Hhi.
  - discriminate.
Qed.

Lemma candidate_units : candidate m e 0 <> None.
Proof.
  unfold candidate. cbv zeta.
  change (Z.max (- 0) 0) with 0. change (Z.max 0 0) with 0.
  change (10 ^ 0) with 1. rewrite !Z.mul_1_r.
  rewrite Xs_integer.
  pose proof scale_at_least_4.
  rewrite Z.div_mul by lia.
  assert (Hlo : reads_back m e z 0 = true).
  { apply reads_back_integer; [lia|]. change (10 ^ 0) with 1. lia. }
  rewrite Hlo.
  destruct (reads_back m e (z + 1) 0).
  - destruct (_ <? _); [discriminate|].
    destruct (_ <? _); [discriminate|].
    destruct (Z.even z); discriminate.
  - discriminate.
Qed.

Lemma shortest_fuel_integer (fuel : nat) :
  forall k,
    1 <= k <= decimal_exponent m e ->
    decimal_exponent m e - k < Z.of_nat fuel ->
    exists s p,
      shortest_fuel m e fuel k = (s, p) /\ 0 <= p /\ s * 10 ^ p = z.
Proof.
  induction fuel as [|fuel IH]; intros k Hk Hfuel; [lia|].
  simpl shortest_fuel.
  destruct (candidate m e (decimal_exponent m e - k)) as [s|] eqn:Hc.
  - exists s, (decimal_exponent m e - k).
    split; [reflexivity|]. split; [lia|].
    apply candidate_integer in Hc; [exact Hc | lia].
  - assert (Hlt : k < decimal_exponent m e).
    { destruct (Z.eq_dec k (decimal_exponent m e)) as [Heq|Hne]; [|lia].
      exfalso. rewrite <- Heq, Z.sub_diag in Hc.
      exact (candidate_units Hc). }
    apply IH; lia.
Qed.

Hypothesis Hsmall : z < 2 ^ 53.

Lemma decimal_exponent_integer : 1 <= decimal_exponent m e <= 16.
Proof.
  unfold decimal_exponent.
  pose proof scale_at_least_4. pose proof integer_positive.
  assert (Hle : (scale e <=? Xs m e) = true).
  { apply Z.leb_le. rewrite Xs_integer. nia. }
  rewrite Hle, Xs_integer, Z.div_mul by lia.
  assert (H2 : 2 ^ 53 < 10 ^ 16) by reflexivity.
  pose proof (decimal_length z ltac:(lia)). lia.
Qed.

Lemma shortest_integer :
  exists s p, shortest m e = (s, p) /\ 0 <= p /\ s * 10 ^ p = z.
Proof.
  unfold shortest.
  pose proof decimal_exponent_integer as Hn.
  destruct (shortest_fuel_integer 17 1 ltac:(lia) ltac:(simpl; lia))
    as (s & p & Hs & Hp & Hv).
  rewrite Hs.
  destruct (strip_zeros_fuel 400 s p) as [s' p'] eqn:Hstrip.
  apply strip_zeros_value in Hstrip; [|exact Hp].
  exists s', p'. split; [reflexivity|].
  destruct Hstrip as [Hp' Hv']. split; [exact Hp' | lia].
Qed.

End ShortestInteger.

Lemma toLocaleString_integral (sign : bool) (m : positive) (e z : Z) :
  integral m e z -> z < 2 ^ 53 ->
  Number_toLocaleString (S754_finite sign m e)
  = (if sign then lit "-" else []) ++ group_thousands (decimal z).
Proof.
  intros Hz Hsmall. unfold Number_toLocaleString, canonical, binary_normalize.
  destruct (binary_round_exact m e z Hz Hsmall) as (m' & e' & Hr & Hi & He').
  rewrite Hr.
  destruct (shortest_integer m' e' z Hi He' Hsmall) as (s & p & Hs & Hp & Hv).
  rewrite Hs. unfold round_thousandths.
  assert (Hle : (-3 <=? p) = true) by (apply Z.leb_le; lia).
  rewrite Hle.
  replace (s * 10 ^ (p + 3)) with (z * 1000)
    by (rewrite Z.pow_add_r by lia; change (10 ^ 3) with 1000; lia).
  rewrite Z.div_mul by lia. rewrite Z.mod_mul by lia.
  change (fraction_digits 0) with (@nil code_unit).
  rewrite app_nil_r. reflexivity.
Qed.



(** ** Which inputs raise *)

Lemma ToString_Arr (l : list value) :
  ToString (Arr l) = Array_join l (lit ",").
Proof.
  unfold Array_join. simpl.
  match goal with
  | |- bind ?a _ = bind ?b _ => assert (Heq : a = b)
  end.
  { induction l as [|x l IH]; simpl; [reflexivity|].
    rewrite IH. reflexivity. }
  rewrite Heq. reflexivity.
Qed.

Lemma mapM_is_ok {A B} (f : A -> result B) (g : A -> bool) (l : list A) :
  Forall (fun a => is_ok (f a) = g a) l ->
  is_ok (mapM f l) = forallb g l.
Proof.
  induction 1 as [|a l Ha _ IH]; simpl; [reflexivity|].
  rewrite <- Ha, <- IH.
  destruct (f a); simpl; [|reflexivity].
  destruct (mapM f l); reflexivity.
Qed.

Lemma Array_join_is_ok (l : list value) (sep : jsstring) :
  Forall (fun x => is_ok (ToString x) = text_safe x) l ->
  is_ok (Array_join l sep) = forallb text_safe l.
Proof.
  intros HF. unfold Array_join.
  rewrite <- (mapM_is_ok join_element text_safe l).
  - destruct (mapM join_element l); reflexivity.
  - apply Forall_impl with (2 := HF).
    intros x Hx. unfold join_element.
    destruct x; simpl in *; try reflexivity; exact Hx.
Qed.

Lemma ToString_is_ok (v : value) : is_ok (ToString v) = text_safe v.
Proof.
  induction v as [| |[|]|x|s|l IH|props _] using value_ind;
    try reflexivity.
  - rewrite ToString_Arr. simpl text_safe. apply Array_join_is_ok. exact IH.
  - simpl. destruct (has_own props (lit "toString")); reflexivity.
Qed.

Lemma Array_join_safe (l : list value) (sep : jsstring) :
  is_ok (Array_join l sep) = forallb text_safe l.
Proof.
  apply Array_join_is_ok. apply Forall_forall.
  intros x _. apply ToString_is_ok.
Qed.

Lemma formatLanguages_is_ok (v : value) :
  is_ok (formatLanguages v) = languages_safe v.
Proof.
  destruct (is_structured v) eqn:Hv.
  - unfold formatLanguages. rewrite guard_structured, Hv. simpl negb. cbv iota.
    destruct v as [| |b|x|s|l|props]; try discriminate; simpl.
    + destruct l as [|x l]; [reflexivity|].
      change (is_ok (s <- Array_join (x :: l) (lit ", ") ;; Ok (Str s))
              = forallb text_safe (x :: l)).
      rewrite <- (Array_join_safe (x :: l) (lit ", ")).
      destruct (Array_join (x :: l) (lit ", ")); reflexivity.
    + destruct props as [|kv props]; [reflexivity|].
      change (is_ok (s <- Array_join (map snd (kv :: props)) (lit ", ") ;;
                     Ok (Str s))
              = forallb text_safe (map snd (kv :: props))).
      rewrite <- (Array_join_safe (map snd (kv :: props)) (lit ", ")).
      destruct (Array_join (map snd (kv :: props)) (lit ", ")); reflexivity.
  - rewrite (formatLanguages_unstructured v Hv).
    destruct v; try discriminate; reflexivity.
Qed.

Lemma flatten_is_ok (v : value) :
  is_ok (flattenCountryFields v) = languages_safe (read v (lit "languages")).
Proof.
  rewrite flatten_fields, <- formatLanguages_is_ok.
  destruct (formatLanguages (read v (lit "languages"))); reflexivity.
Qed.

Lemma toLocaleString_element_is_ok (l : list value) :
  Forall (fun x => nullish x = false ->
                   is_ok (Invoke_toLocaleString x) = locale_safe x) l ->
  is_ok (Invoke_toLocaleString (Arr l)) = forallb locale_safe l.
Proof.
  intros HF. simpl.
  match goal with
  | |- is_ok (bind ?a _) = _ => assert (Heq : is_ok a = forallb locale_safe l)
  end.
  { induction HF as [|x l Hx _ IH]; simpl; [reflexivity|].
    rewrite <- IH.
    destruct (nullish x) eqn:Hn.
    - assert (Hs : locale_safe x = true)
        by (destruct x; try discriminate; reflexivity).
      rewrite Hs. simpl.
      match goal with |- is_ok (bind ?r _) = _ => destruct r end; reflexivity.
    - rewrite <- (Hx eq_refl).
      destruct (Invoke_toLocaleString x); simpl; [|reflexivity].
      match goal with |- is_ok (bind ?r _) = _ => destruct r end; reflexivity. }
  rewrite <- Heq.
  match goal with |- is_ok (bind ?r _) = _ => destruct r end; reflexivity.
Qed.

Lemma toLocaleString_is_ok (v : value) :
  nullish v = false -> is_ok (Invoke_toLocaleString v) = locale_safe v.
Proof.
  induction v as [| |[|]|x|s|l IH|props _] using value_ind; intros Hn;
    try discriminate; try reflexivity.
  - simpl locale_safe. apply toLocaleString_element_is_ok. exact IH.
  - simpl.
    destruct (has_own props (lit "toLocaleString")); [reflexivity|].
    destruct (has_own props (lit "toString")); reflexivity.
Qed.

Lemma formatNumber_is_ok (v : value) :
  is_ok (formatNumber v) = locale_safe v.
Proof.
  unfold formatNumber.
  destruct (negb (ToBoolean v) && negb (strict_eq_number v (number_of_Z 0)))
    eqn:Hg.
  - destruct v; try reflexivity; discriminate.
  - assert (Hn : nullish v = false)
      by (destruct v; try discriminate; reflexivity).
    rewrite <- (toLocaleString_is_ok v Hn).
    destruct (Invoke_toLocaleString v); reflexivity.
Qed.

Lemma flattenCountriesArray_is_ok (v : value) :
  is_ok (flattenCountriesArray v)
  = match v with
    | Arr l => forallb (fun c => languages_safe (read c (lit "languages"))) l
    | _ => true
    end.
Proof.
  destruct v as [| |b|x|s|l|props]; try reflexivity.
  unfold flattenCountriesArray. simpl.
  rewrite <- (mapM_is_ok (fun country => flattenCountryFields country)).
  - destruct (mapM _ l); reflexivity.
  - apply Forall_forall. intros c _. apply flatten_is_ok.
Qed.

Lemma unstructured_text_safe (l : list value) :
  Forall (fun x => is_structured x = false) l -> forallb text_safe l = true.
Proof.
  induction 1 as [|x l Hx _ IH]; simpl; [reflexivity|].
  rewrite IH. destruct x; try discriminate; reflexivity.
Qed.

(** ** The types of the output fields *)

Lemma formatLanguages_string (v langs : value) :
  formatLanguages v = Ok langs -> is_string langs = true.
Proof.
  unfold formatLanguages.
  destruct (negb (ToBoolean v) || negb (jsstring_eqb (typeof v) (lit "object"))).
  - intros H. inversion H. reflexivity.
  - destruct (Object_values v) as [l|e]; simpl; [|discriminate].
    destruct (0 <? List.length l)%nat.
    + destruct (Array_join l (lit ", ")); simpl; [|discriminate].
      intros H. inversion H. reflexivity.
    + intros H. inversion H. reflexivity.
Qed.

Lemma or_else_string (a : value) (s : jsstring) :
  is_string (or_else a (Str s)) = is_string a || negb (ToBoolean a).
Proof.
  unfold or_else. destruct (ToBoolean a); simpl.
  - rewrite orb_false_r. reflexivity.
  - rewrite orb_true_r. reflexivity.
Qed.

Lemma or_else_falsy (a b : value) : ToBoolean a = false -> or_else a b = b.
Proof. intros H. unfold or_else. rewrite H. reflexivity. Qed.

Lemma or_else_truthy (a b : value) :
  ToBoolean b = true -> ToBoolean (or_else a b) = true.
Proof. intros H. unfold or_else. destruct (ToBoolean a) eqn:Ha; assumption. Qed.

Lemma keep_number (x : value) : is_number (keep x) = is_number x.
Proof. destruct x; reflexivity. Qed.

Lemma keep_not_nullish (x : value) : nullish (keep x) = false.
Proof. destruct x; reflexivity. Qed.

(** C3, the claim as stated fails: a record whose [region] is the number
    42 is flattened to a record whose [region] is that number, not a
    string. *)
Lemma region_number_stays_number :
  flattenCountryFields (Obj [ (lit "region", Num (number_of_Z 42)) ])
  = Ok (flat_record (Str (lit "N/A")) (Num (number_of_Z 42)) (Str (lit "N/A"))
          (Str (lit "N/A")) (Str (lit "N/A")) (Str (lit "N/A")) (Str []))
  /\ is_string (Num (number_of_Z 42)) = false.
Proof. split; reflexivity. Qed.

(** C3, amended.  In the record [flattenCountryFields] returns,
    [population] and [area] are numbers exactly when the source value is a
    number; [languages] is a string; each of [name], [region], [capital]
    and [flagUrl] is a string exactly when its source value ([name.common],
    [region], [capital[0]], [flags.png]) is a string or falsy.  A falsy
    source gives "N/A" for [name], [region] and [capital] and the empty
    string, which is not "N/A", for [flagUrl]. *)
Theorem flat_record_types (v langs : value) :
  formatLanguages (read v (lit "languages")) = Ok langs ->
  exists out,
    flattenCountryFields v = Ok out
    /\ is_number (read out (lit "population"))
       = is_number (read v (lit "population"))
    /\ is_number (read out (lit "area")) = is_number (read v (lit "area"))
    /\ is_string (read out (lit "languages")) = true
    /\ is_string (read out (lit "name"))
       = is_string (read (read v (lit "name")) (lit "common"))
         || negb (ToBoolean (read (read v (lit "name")) (lit "common")))
    /\ is_string (read out (lit "region"))
       = is_string (read v (lit "region"))
         || negb (ToBoolean (read v (lit "region")))
    /\ is_string (read out (lit "capital"))
       = is_string (read (read v (lit "capital")) (lit "0"))
         || negb (ToBoolean (read (read v (lit "capital")) (lit "0")))
    /\ is_string (read out (lit "flagUrl"))
       = is_string (read (read v (lit "flags")) (lit "png"))
         || negb (ToBoolean (read (read v (lit "flags")) (lit "png")))
    /\ (ToBoolean (read (read v (lit "name")) (lit "common")) = false ->
        read out (lit "name") = Str (lit "N/A"))
    /\ (ToBoolean (read v (lit "region")) = false ->
        read out (lit "region") = Str (lit "N/A"))
    /\ (ToBoolean (read (read v (lit "capital")) (lit "0")) = false ->
        read out (lit "capital") = Str (lit "N/A"))
    /\ (ToBoolean (read (read v (lit "flags")) (lit "png")) = false ->
        read out (lit "flagUrl") = Str [])
    /\ Str [] <> Str (lit "N/A").
Proof.
  intros Hl. exists (flattened v langs).
  split; [exact (flatten_returns v langs Hl)|].
  flat_reads.
  rewrite Hname, Hregion, Hcapital, Hlanguages, Hpopulation, Harea, HflagUrl.
  rewrite !keep_number.
  unfold NA. rewrite !or_else_string.
  do 2 (split; [reflexivity|]).
  split; [exact (formatLanguages_string _ _ Hl)|].
  do 4 (split; [reflexivity|]).
  do 4 (split; [apply or_else_falsy|]).
  discriminate.
Qed.

Lemma flat_record_types_witness :
  exists out,
    flattenCountryFields antarctica = Ok out
    /\ is_number (read out (lit "population")) = false
    /\ is_number (read out (lit "area")) = true
    /\ is_string (read out (lit "name")) = true
    /\ read out (lit "flagUrl") = Str [].
Proof.
  destruct (flat_record_types antarctica NA eq_refl)
    as (out & Hout & Hpop & Harea & _ & Hname & _ & _ & _ & _ & _ & _ & Hflag & _).
  exists out. split; [exact Hout|].
  split; [exact Hpop|]. split; [exact Harea|]. split; [exact Hname|].
  exact (Hflag eq_refl).
Defined.

(** ** Flattening a flat record *)

(** C7, the claim as stated fails: flattening the flat record of France
    again keeps [region], [population] and [area] and leaves "P" as
    [capital]; the result is not the fully absent record. *)
Lemma reflatten_france_not_absent :
  flattenCountryFields france
  = Ok (flat_record (Str (lit "France")) (Str (lit "Europe"))
          (Str (lit "Paris")) (Str (lit "French"))
          (Num (number_of_Z 67391582)) (Num (number_of_Z 551695))
          (Str (lit "https://flagcdn.com/w320/fr.png")))
  /\ flattenCountryFields
       (flat_record (Str (lit "France")) (Str (lit "Europe"))
          (Str (lit "Paris")) (Str (lit "French"))
          (Num (number_of_Z 67391582)) (Num (number_of_Z 551695))
          (Str (lit "https://flagcdn.com/w320/fr.png")))
     = Ok (flat_record (Str (lit "N/A")) (Str (lit "Europe")) (Str (lit "P"))
             (Str (lit "N/A")) (Num (number_of_Z 67391582))
             (Num (number_of_Z 551695)) (Str []))
  /\ flat_record (Str (lit "N/A")) (Str (lit "Europe")) (Str (lit "P"))
       (Str (lit "N/A")) (Num (number_of_Z 67391582))
       (Num (number_of_Z 551695)) (Str [])
     <> flat_record (Str (lit "N/A")) (Str (lit "N/A")) (Str (lit "N/A"))
          (Str (lit "N/A")) (Str (lit "N/A")) (Str (lit "N/A")) (Str []).
Proof.
  split; [vm_compute; reflexivity|].
  split; [vm_compute; reflexivity|].
  vm_compute. discriminate.
Qed.

(** C7, amended.  [flattenCountryFields] applied to its own output returns
    without raising: [languages] becomes "N/A" and [flagUrl] the empty
    string, [name] becomes "N/A" when it was a string, while [region],
    [population] and [area] are those of the first output and [capital] is
    the first code unit of the first output's [capital] when that is a
    string. *)
Theorem reflatten_rule (v out : value) :
  flattenCountryFields v = Ok out ->
  flattenCountryFields out
  = Ok (flat_record
          (or_else (read (read out (lit "name")) (lit "common")) (Str (lit "N/A")))
          (read out (lit "region"))
          (or_else (read (read out (lit "capital")) (lit "0")) (Str (lit "N/A")))
          (Str (lit "N/A"))
          (read out (lit "population"))
          (read out (lit "area"))
          (Str []))
  /\ (is_string (read out (lit "name")) = true ->
      or_else (read (read out (lit "name")) (lit "common")) (Str (lit "N/A"))
      = Str (lit "N/A"))
  /\ (forall c rest, read out (lit "capital") = Str (c :: rest) ->
      or_else (read (read out (lit "capital")) (lit "0")) (Str (lit "N/A"))
      = Str [c]).
Proof.
  intros Hout. rewrite flatten_fields in Hout.
  destruct (formatLanguages (read v (lit "languages"))) as [langs|e] eqn:Hl;
    [|discriminate].
  simpl in Hout. inversion Hout as [Heq]. clear Hout. clear Heq out.
  pose proof (formatLanguages_string _ _ Hl) as Hs.
  split; [|split].
  - assert (Hlangs : formatLanguages (read (flattened v langs) (lit "languages"))
                     = Ok NA).
    { flat_reads. rewrite Hlanguages.
      apply formatLanguages_unstructured.
      destruct langs; try discriminate; reflexivity. }
    rewrite (flatten_returns (flattened v langs) NA Hlangs).
    assert (Hr : or_else (read (flattened v langs) (lit "region")) NA
                 = read (flattened v langs) (lit "region")).
    { flat_reads. rewrite Hregion.
      assert (Ht : ToBoolean (or_else (read v (lit "region")) NA) = true)
        by (apply or_else_truthy; reflexivity).
      unfold or_else at 1. rewrite Ht. reflexivity. }
    assert (Hp : forall p, p = lit "population" \/ p = lit "area" ->
                 keep (read (flattened v langs) p) = read (flattened v langs) p).
    { intros p Hp. flat_reads.
      destruct Hp as [-> | ->];
        [rewrite Hpopulation | rewrite Harea];
        unfold keep at 1; rewrite keep_not_nullish; reflexivity. }
    unfold flattened at 1.
    rewrite Hr, !Hp by (left + right; reflexivity).
    reflexivity.
  - intros Hn. destruct (read (flattened v langs) (lit "name"));
      try discriminate. reflexivity.
  - intros c rest Hc. rewrite Hc. reflexivity.
Qed.

Lemma reflatten_rule_witness :
  flattenCountryFields absent_record
  = Ok (flat_record (Str (lit "N/A")) (Str (lit "N/A")) (Str (lit "N"))
          (Str (lit "N/A")) (Str (lit "N/A")) (Str (lit "N/A")) (Str [])).
Proof.
  exact (proj1 (reflatten_rule Null absent_record eq_refl)).
Defined.

(** ** Raising *)

(** C8, the claim as stated fails: a languages mapping one of whose values
    is an object with an own property [toString] makes [join] raise a
    [TypeError], in [formatLanguages] and so in [flattenCountryFields] and
    [flattenCountriesArray]; an object with an own property
    [toLocaleString] makes [formatNumber] raise. *)
Lemma shadowed_toString_raises :
  formatLanguages
    (Obj [ (lit "eng", Obj [ (lit "toString", Num (number_of_Z 1)) ]) ])
  = Throw TypeError
  /\ flattenCountryFields
       (Obj [ (lit "name", Obj [ (lit "common", Str (lit "France")) ]);
              (lit "languages",
               Obj [ (lit "eng", Obj [ (lit "toString", Num (number_of_Z 1)) ]) ]) ])
     = Throw TypeError
  /\ flattenCountriesArray
       (Arr [ Obj [ (lit "languages",
                     Obj [ (lit "eng",
                            Obj [ (lit "toString", Num (number_of_Z 1)) ]) ]) ] ])
     = Throw TypeError
  /\ formatNumber (Obj [ (lit "toLocaleString", Num (number_of_Z 1)) ])
     = Throw TypeError.
Proof. repeat split. Qed.

(** C8, amended.  The four functions return without raising exactly on
    the inputs in which no value that has to be converted to text is an
    object with an own [toString] (for [formatNumber]: [toLocaleString] or
    [toString]) property.  In particular none of them raises on
    [undefined], [null] or any other input that is not an object, on a
    record with missing nested paths, or on a record whose languages are
    not objects themselves. *)
Theorem raises_only_on_shadowed_toString :
  (forall v, is_ok (flattenCountryFields v)
             = languages_safe (read v (lit "languages")))
  /\ (forall v, is_ok (formatLanguages v) = languages_safe v)
  /\ (forall v, is_ok (formatNumber v) = locale_safe v)
  /\ (forall v, is_ok (flattenCountriesArray v)
                = match v with
                  | Arr l =>
                      forallb
                        (fun c => languages_safe (read c (lit "languages"))) l
                  | _ => true
                  end)
  /\ (forall v, is_structured v = false ->
        is_ok (flattenCountryFields v) = true
        /\ is_ok (formatLanguages v) = true
        /\ is_ok (formatNumber v) = true
        /\ is_ok (flattenCountriesArray v) = true)
  /\ (forall v, is_structured (read v (lit "languages")) = false ->
        is_ok (flattenCountryFields v) = true)
  /\ (forall v l, Object_values (read v (lit "languages")) = Ok l ->
        Forall (fun x => is_structured x = false) l ->
        is_ok (flattenCountryFields v) = true).
Proof.
  split; [exact flatten_is_ok|].
  split; [exact formatLanguages_is_ok|].
  split; [exact formatNumber_is_ok|].
  split; [exact flattenCountriesArray_is_ok|].
  split.
  { intros v Hv.
    rewrite (flatten_unstructured v Hv), (formatLanguages_unstructured v Hv).
    rewrite formatNumber_is_ok, flattenCountriesArray_is_ok.
    destruct v; try discriminate; repeat split. }
  split.
  { intros v Hv. rewrite flatten_is_ok.
    destruct (read v (lit "languages")); try discriminate; reflexivity. }
  intros v l Hl HF. rewrite flatten_is_ok.
  destruct (read v (lit "languages")) as [| |b|x|s|l'|props];
    try reflexivity; simpl in *; inversion Hl; subst;
    apply unstructured_text_safe; exact HF.
Qed.

Lemma raises_only_on_shadowed_toString_witness :
  is_ok (flattenCountryFields (Num (number_of_Z 7))) = true
  /\ is_ok (flattenCountryFields antarctica) = true
  /\ is_ok (flattenCountryFields france) = true.
Proof.
  destruct raises_only_on_shadowed_toString
    as (_ & _ & _ & _ & Hun & Hmissing & Hvalues).
  split; [exact (proj1 (Hun (Num (number_of_Z 7)) eq_refl))|].
  split; [exact (Hmissing antarctica eq_refl)|].
  apply (Hvalues france [ Str (lit "French") ] eq_refl).
  repeat constructor.
Defined.

(** * Further properties of the module *)

Lemma jsstring_eqb_true (a b : jsstring) : jsstring_eqb a b = true -> a = b.
Proof.
  revert b. induction a as [|x a IH]; intros [|y b]; simpl;
    try discriminate; [reflexivity|].
  intros H. apply andb_true_iff in H. destruct H as [Hxy Hab].
  apply N.eqb_eq in Hxy. apply IH in Hab. subst. reflexivity.
Qed.

Lemma jsstring_eqb_same (a : jsstring) : jsstring_eqb a a = true.
Proof.
  induction a as [|x a IH]; simpl; [reflexivity|].
  rewrite N.eqb_refl. exact IH.
Qed.

Lemma jsstring_eqb_false (a b : jsstring) : a <> b -> jsstring_eqb a b = false.
Proof.
  intros Hne. destruct (jsstring_eqb a b) eqn:H; [|reflexivity].
  contradiction Hne. apply jsstring_eqb_true. exact H.
Qed.

Lemma truthy_not_nullish (x : value) : ToBoolean x = true -> nullish x = false.
Proof. destruct x; simpl; intros H; try discriminate; reflexivity. Qed.

Lemma or_else_sentinel (a b : value) :
  or_else a b = b \/ ToBoolean (or_else a b) = true.
Proof.
  unfold or_else. destruct (ToBoolean a) eqn:Ha; [right; exact Ha | left; reflexivity].
Qed.

(** ** The shape of the output *)

(** Whatever the input, a returned record has exactly the seven fields, in
    the order of the literal; [name], [region] and [capital] are truthy,
    [languages] is a string, [population] and [area] are neither
    [undefined] nor [null], and [flagUrl] is truthy or the empty string. *)
Theorem flatten_output_shape (v out : value) :
  flattenCountryFields v = Ok out ->
  exists name region capital languages population area flagUrl,
    out = flat_record name region capital languages population area flagUrl
    /\ ToBoolean name = true
    /\ ToBoolean region = true
    /\ ToBoolean capital = true
    /\ is_string languages = true
    /\ nullish population = false
    /\ nullish area = false
    /\ (flagUrl = Str [] \/ ToBoolean flagUrl = true).
Proof.
  rewrite flatten_fields.
  destruct (formatLanguages (read v (lit "languages"))) as [langs|e] eqn:Hl;
    simpl; [|discriminate].
  intros H. inversion H. subst out. unfold flattened.
  do 7 eexists. split; [reflexivity|].
  repeat split;
    try (apply or_else_truthy; reflexivity);
    try apply keep_not_nullish.
  - exact (formatLanguages_string _ _ Hl).
  - apply or_else_sentinel.
Qed.

Lemma flatten_output_shape_witness :
  exists name region capital languages population area flagUrl,
    flat_record (Str (lit "Antarctica")) NA NA NA NA
      (Num (number_of_Z 14000000)) (Str [])
    = flat_record name region capital languages population area flagUrl
    /\ ToBoolean name = true
    /\ ToBoolean region = true
    /\ ToBoolean capital = true
    /\ is_string languages = true
    /\ nullish population = false
    /\ nullish area = false
    /\ (flagUrl = Str [] \/ ToBoolean flagUrl = true).
Proof. exact (flatten_output_shape antarctica _ eq_refl). Defined.

(** ** Inputs with nothing to read *)

(** An object whose [name.common], [region], [capital[0]] and [flags.png]
    are missing or falsy, whose [population] and [area] are [undefined] or
    [null], and whose languages are formatted as "N/A" (missing, not an
    object, or empty) is flattened to the record of a malformed input.
    Every array is such an object, and so is the empty object. *)
Theorem flatten_nothing_to_read :
  (forall v,
      ToBoolean (read (read v (lit "name")) (lit "common")) = false ->
      ToBoolean (read v (lit "region")) = false ->
      ToBoolean (read (read v (lit "capital")) (lit "0")) = false ->
      formatLanguages (read v (lit "languages")) = Ok (Str (lit "N/A")) ->
      nullish (read v (lit "population")) = true ->
      nullish (read v (lit "area")) = true ->
      ToBoolean (read (read v (lit "flags")) (lit "png")) = false ->
      flattenCountryFields v = Ok absent_record)
  /\ (forall l, flattenCountryFields (Arr l) = Ok absent_record)
  /\ flattenCountryFields (Obj []) = Ok absent_record.
Proof.
  assert (Hgen : forall v,
      ToBoolean (read (read v (lit "name")) (lit "common")) = false ->
      ToBoolean (read v (lit "region")) = false ->
      ToBoolean (read (read v (lit "capital")) (lit "0")) = false ->
      formatLanguages (read v (lit "languages")) = Ok (Str (lit "N/A")) ->
      nullish (read v (lit "population")) = true ->
      nullish (read v (lit "area")) = true ->
      ToBoolean (read (read v (lit "flags")) (lit "png")) = false ->
      flattenCountryFields v = Ok absent_record).
  { intros v Hn Hr Hc Hl Hp Ha Hf.
    rewrite (flatten_returns v NA Hl). unfold flattened, keep.
    rewrite !or_else_falsy by assumption. rewrite Hp, Ha. reflexivity. }
  split; [exact Hgen|].
  split; [|reflexivity].
  intros l. apply Hgen; reflexivity.
Qed.

Lemma flatten_nothing_to_read_witness :
  flattenCountryFields
    (Obj [ (lit "name", Obj [ (lit "official", Str (lit "French Republic")) ]);
           (lit "region", Str []);
           (lit "capital", Arr []);
           (lit "languages", Obj []);
           (lit "population", Null);
           (lit "flags", Obj [ (lit "svg", Str (lit "fr.svg")) ]) ])
  = Ok absent_record.
Proof.
  apply (proj1 flatten_nothing_to_read); reflexivity.
Defined.

(** ** The capital *)

(** When [capital] is an array, the output's capital is its first element
    if that is truthy and "N/A" otherwise (also for the empty array); the
    other elements are never looked at. *)
Theorem capital_first_element (v langs : value) (l : list value) :
  read v (lit "capital") = Arr l ->
  formatLanguages (read v (lit "languages")) = Ok langs ->
  exists out,
    flattenCountryFields v = Ok out
    /\ read out (lit "capital")
       = match l with
         | c :: _ => if ToBoolean c then c else Str (lit "N/A")
         | [] => Str (lit "N/A")
         end.
Proof.
  intros Hc Hl. exists (flattened v langs).
  split; [exact (flatten_returns v langs Hl)|].
  flat_reads. rewrite Hcapital, Hc.
  destruct l as [|c rest]; reflexivity.
Qed.

Lemma capital_first_element_witness :
  exists out,
    flattenCountryFields
      (Obj [ (lit "capital",
              Arr [ Str (lit "Pretoria"); Str (lit "Bloemfontein");
                    Str (lit "Cape Town") ]) ]) = Ok out
    /\ read out (lit "capital") = Str (lit "Pretoria").
Proof.
  exact (capital_first_element
           (Obj [ (lit "capital",
                   Arr [ Str (lit "Pretoria"); Str (lit "Bloemfontein");
                         Str (lit "Cape Town") ]) ])
           NA _ eq_refl eq_refl).
Defined.

(** ** Records of the documented shape *)

(** A record that carries all seven sources with their documented types (a
    non-empty common name, region and flag URL, a capital array that starts
    with a non-empty string, a non-empty mapping of language names, numeric
    population and area) is flattened to exactly these values, the language
    names joined with ", "; whatever else the record carries plays no
    part. *)
Theorem flatten_documented_record
  (v nameObject flags : value)
  (common region capital png : jsstring) (capitals : list value)
  (languages : list (jsstring * jsstring)) (population area : number) :
  read v (lit "name") = nameObject ->
  read nameObject (lit "common") = Str common -> common <> [] ->
  read v (lit "region") = Str region -> region <> [] ->
  read v (lit "capital") = Arr (Str capital :: capitals) -> capital <> [] ->
  read v (lit "languages")
  = Obj (map (fun kv => (fst kv, Str (snd kv))) languages) ->
  languages <> [] ->
  read v (lit "population") = Num population ->
  read v (lit "area") = Num area ->
  read v (lit "flags") = flags ->
  read flags (lit "png") = Str png -> png <> [] ->
  flattenCountryFields v
  = Ok (flat_record (Str common) (Str region) (Str capital)
          (Str (intercalate (lit ", ") (map snd languages)))
          (Num population) (Num area) (Str png)).
Proof.
  intros Hn Hcommon Hcommon' Hregion Hregion' Hcapital Hcapital'
         Hlanguages Hlanguages' Hpopulation Harea Hf Hpng Hpng'.
  assert (Hl : formatLanguages (read v (lit "languages"))
               = Ok (Str (intercalate (lit ", ") (map snd languages)))).
  { rewrite Hlanguages.
    destruct languages as [|kv entries]; [contradiction Hlanguages'; reflexivity|].
    rewrite (formatLanguages_values _ (Str (snd kv))
               (map Str (map snd entries)));
      [ | reflexivity | simpl; rewrite !map_map; reflexivity ].
    change (Str (snd kv) :: map Str (map snd entries))
      with (map Str (map snd (kv :: entries))).
    rewrite Array_join_strings. reflexivity. }
  rewrite (flatten_returns v _ Hl). unfold flattened.
  rewrite Hn, Hcommon, Hregion, Hcapital, Hpopulation, Harea, Hf, Hpng.
  destruct common; [contradiction Hcommon'; reflexivity|].
  destruct region; [contradiction Hregion'; reflexivity|].
  destruct capital; [contradiction Hcapital'; reflexivity|].
  destruct png; [contradiction Hpng'; reflexivity|].
  reflexivity.
Qed.

Lemma flatten_documented_record_witness :
  flattenCountryFields switzerland
  = Ok (flat_record (Str (lit "Switzerland")) (Str (lit "Europe"))
          (Str (lit "Bern"))
          (Str (lit "French, Swiss German, Italian, Romansh"))
          (Num (number_of_Z 8654622)) (Num (number_of_Z 41284))
          (Str (lit "https://flagcdn.com/w320/ch.png"))).
Proof.
  apply (flatten_documented_record switzerland
           (read switzerland (lit "name")) (read switzerland (lit "flags"))
           (lit "Switzerland") (lit "Europe") (lit "Bern")
           (lit "https://flagcdn.com/w320/ch.png") []
           [ (lit "fra", lit "French"); (lit "gsw", lit "Swiss German");
             (lit "ita", lit "Italian"); (lit "roh", lit "Romansh") ]
           (number_of_Z 8654622) (number_of_Z 41284));
    try reflexivity; discriminate.
Defined.

(** ** What is not read *)

Lemma flatten_same_sources (v w : value) :
  same_sources v w -> flattenCountryFields v = flattenCountryFields w.
Proof.
  intros (Hn & Hr & Hc & Hl & Hp & Ha & Hf).
  rewrite !flatten_fields. unfold flattened.
  rewrite Hn, Hr, Hc, Hl, Hp, Ha, Hf. reflexivity.
Qed.

Lemma jsstring_eqb_sym (a b : jsstring) : jsstring_eqb a b = jsstring_eqb b a.
Proof.
  destruct (jsstring_eqb a b) eqn:Hab.
  - apply jsstring_eqb_true in Hab. subst. symmetry. apply jsstring_eqb_same.
  - destruct (jsstring_eqb b a) eqn:Hba; [|reflexivity].
    apply jsstring_eqb_true in Hba. subst.
    rewrite jsstring_eqb_same in Hab. discriminate.
Qed.

Lemma is_one_of_same (names : list jsstring) (k p : jsstring) :
  jsstring_eqb k p = true -> is_one_of names k = is_one_of names p.
Proof. intros H. apply jsstring_eqb_true in H. subst. reflexivity. Qed.

Lemma own_property_filter_props (names : list jsstring) (p : jsstring)
      (props : list (jsstring * value)) :
  is_one_of names p = true ->
  own_property (filter_props names props) p = own_property props p.
Proof.
  intros Hp. induction props as [|[k x] props IH]; [reflexivity|].
  unfold filter_props in *. simpl.
  destruct (is_one_of names k) eqn:Hk; simpl.
  - rewrite IH. reflexivity.
  - destruct (jsstring_eqb k p) eqn:Hkp; [|exact IH].
    rewrite (is_one_of_same names k p Hkp), Hp in Hk. discriminate.
Qed.

Lemma own_property_update_props (k p : jsstring) (f : value -> value)
      (props : list (jsstring * value)) :
  own_property (update_props k f props) p
  = if jsstring_eqb k p then option_map f (own_property props p)
    else own_property props p.
Proof.
  induction props as [|[k0 x] props IH]; simpl.
  - destruct (jsstring_eqb k p); reflexivity.
  - destruct (jsstring_eqb k0 k) eqn:H0k; simpl;
      destruct (jsstring_eqb k0 p) eqn:H0p.
    + apply jsstring_eqb_true in H0k. subst k0. rewrite H0p. reflexivity.
    + exact IH.
    + destruct (jsstring_eqb k p) eqn:Hkp; [|reflexivity].
      apply jsstring_eqb_true in Hkp. subst p.
      rewrite H0p in H0k. discriminate.
    + exact IH.
Qed.

Lemma read_filter_props (names : list jsstring) (p : jsstring)
      (props : list (jsstring * value)) :
  is_one_of names p = true ->
  read (Obj (filter_props names props)) p = read (Obj props) p.
Proof.
  intros Hp. unfold read, Get_opt. simpl.
  rewrite (own_property_filter_props names p props Hp). reflexivity.
Qed.

Lemma read_update_other (k p : jsstring) (f : value -> value)
      (props : list (jsstring * value)) :
  jsstring_eqb k p = false ->
  read (Obj (update_props k f props)) p = read (Obj props) p.
Proof.
  intros Hkp. unfold read, Get_opt. simpl.
  rewrite own_property_update_props, Hkp. reflexivity.
Qed.

Lemma read_update_same (k : jsstring) (f : value -> value)
      (props : list (jsstring * value)) :
  f Undefined = Undefined ->
  read (Obj (update_props k f props)) k = f (read (Obj props) k).
Proof.
  intros Hf. unfold read, Get_opt. simpl.
  rewrite own_property_update_props, jsstring_eqb_same.
  destruct (own_property props k); simpl; [reflexivity | symmetry; exact Hf].
Qed.

Lemma read_only_properties (names : list jsstring) (p : jsstring) (v : value) :
  is_one_of names p = true -> read (only_properties names v) p = read v p.
Proof.
  intros Hp. destruct v; try reflexivity.
  apply read_filter_props. exact Hp.
Qed.

Lemma read_first_only (v : value) :
  read (first_only v) (lit "0") = read v (lit "0").
Proof.
  destruct v as [| |b|x|s|[|c l]|props]; reflexivity.
Qed.

Lemma pruned_same_sources (v : value) : same_sources (pruned v) v.
Proof.
  destruct v as [| |b|x|s|l|props]; try (repeat split; reflexivity).
  unfold pruned, same_sources.
  set (P0 := filter_props top_level_names props).
  set (P1 := update_props (lit "name") (only_properties [ lit "common" ]) P0).
  set (P2 := update_props (lit "flags") (only_properties [ lit "png" ]) P1).
  assert (H0 : forall p, is_one_of top_level_names p = true ->
                         read (Obj P0) p = read (Obj props) p)
    by (intros p Hp; apply read_filter_props; exact Hp).
  repeat split.
  - rewrite (read_update_other (lit "capital") (lit "name")) by reflexivity.
    unfold P2.
    rewrite (read_update_other (lit "flags") (lit "name")) by reflexivity.
    unfold P1. rewrite read_update_same by reflexivity.
    rewrite read_only_properties by reflexivity.
    rewrite H0 by reflexivity. reflexivity.
  - rewrite (read_update_other (lit "capital") (lit "region")) by reflexivity.
    unfold P2.
    rewrite (read_update_other (lit "flags") (lit "region")) by reflexivity.
    unfold P1.
    rewrite (read_update_other (lit "name") (lit "region")) by reflexivity.
    apply H0. reflexivity.
  - rewrite read_update_same by reflexivity. rewrite read_first_only.
    unfold P2.
    rewrite (read_update_other (lit "flags") (lit "capital")) by reflexivity.
    unfold P1.
    rewrite (read_update_other (lit "name") (lit "capital")) by reflexivity.
    rewrite H0 by reflexivity. reflexivity.
  - rewrite (read_update_other (lit "capital") (lit "languages")) by reflexivity.
    unfold P2.
    rewrite (read_update_other (lit "flags") (lit "languages")) by reflexivity.
    unfold P1.
    rewrite (read_update_other (lit "name") (lit "languages")) by reflexivity.
    apply H0. reflexivity.
  - rewrite (read_update_other (lit "capital") (lit "population")) by reflexivity.
    unfold P2.
    rewrite (read_update_other (lit "flags") (lit "population")) by reflexivity.
    unfold P1.
    rewrite (read_update_other (lit "name") (lit "population")) by reflexivity.
    apply H0. reflexivity.
  - rewrite (read_update_other (lit "capital") (lit "area")) by reflexivity.
    unfold P2.
    rewrite (read_update_other (lit "flags") (lit "area")) by reflexivity.
    unfold P1.
    rewrite (read_update_other (lit "name") (lit "area")) by reflexivity.
    apply H0. reflexivity.
  - rewrite (read_update_other (lit "capital") (lit "flags")) by reflexivity.
    unfold P2. rewrite read_update_same by reflexivity.
    rewrite read_only_properties by reflexivity.
    unfold P1.
    rewrite (read_update_other (lit "name") (lit "flags")) by reflexivity.
    rewrite H0 by reflexivity. reflexivity.
Qed.

(** The module reads seven paths and nothing else.  Two inputs that agree
    on the seven paths give the same result; in particular an input gives
    the same result as what is left of it when every top-level property
    other than the seven, every property of [name] other than [common],
    every property of [flags] other than [png] and every element of
    [capital] after the first is taken out, wherever it stands. *)
Theorem unread_data_is_ignored :
  (forall v w, same_sources v w ->
               flattenCountryFields v = flattenCountryFields w)
  /\ (forall v, flattenCountryFields (pruned v) = flattenCountryFields v).
Proof.
  split; [exact flatten_same_sources|].
  intros v. apply flatten_same_sources. apply pruned_same_sources.
Qed.

Lemma unread_data_is_ignored_witness :
  pruned sampleCountry = france
  /\ flattenCountryFields france = flattenCountryFields sampleCountry.
Proof.
  split; [reflexivity|].
  apply (proj1 unread_data_is_ignored). repeat split.
Defined.

(** ** The order of the input's properties *)

Lemma own_property_permutation
      (props props' : list (jsstring * value)) (p : jsstring) :
  Permutation props props' ->
  NoDup (map fst props) ->
  own_property props p = own_property props' p.
Proof.
  induction 1 as [| [k x] l l' _ IH | [k1 x1] [k2 x2] l | l l' l'' H1 IH1 H2 IH2];
    intros Hnd; simpl in *.
  - reflexivity.
  - inversion Hnd. subst. rewrite IH by assumption. reflexivity.
  - destruct (jsstring_eqb k1 p) eqn:H1; destruct (jsstring_eqb k2 p) eqn:H2;
      try reflexivity.
    apply jsstring_eqb_true in H1. apply jsstring_eqb_true in H2. subst.
    inversion Hnd as [|? ? Hnotin _]. contradiction Hnotin. left. reflexivity.
  - rewrite IH1 by exact Hnd. apply IH2.
    apply (Permutation_NoDup (Permutation_map fst H1)). exact Hnd.
Qed.

Lemma read_permutation (props props' : list (jsstring * value)) (p : jsstring) :
  Permutation props props' ->
  NoDup (map fst props) ->
  read (Obj props) p = read (Obj props') p.
Proof.
  intros Hp Hnd. unfold read, Get_opt. simpl.
  rewrite (own_property_permutation props props' p Hp Hnd). reflexivity.
Qed.

(** The result does not depend on the order in which the input object
    lists its properties (the keys of an object being distinct). *)
Theorem property_order_is_irrelevant (props props' : list (jsstring * value)) :
  NoDup (map fst props) ->
  Permutation props props' ->
  flattenCountryFields (Obj props) = flattenCountryFields (Obj props').
Proof.
  intros Hnd Hp. apply flatten_same_sources. unfold same_sources.
  rewrite !(read_permutation props props' _ Hp Hnd).
  repeat split.
Qed.

Lemma property_order_is_irrelevant_witness :
  flattenCountryFields
    (Obj [ (lit "area", Num (number_of_Z 14000000));
           (lit "name", Obj [ (lit "common", Str (lit "Antarctica")) ]) ])
  = flattenCountryFields
      (Obj [ (lit "name", Obj [ (lit "common", Str (lit "Antarctica")) ]);
             (lit "area", Num (number_of_Z 14000000)) ]).
Proof.
  apply property_order_is_irrelevant.
  - repeat constructor; simpl; intros H;
      repeat (destruct H as [H | H]; [discriminate H|]); exact H.
  - apply perm_swap.
Defined.

(** ** Batches *)

Lemma mapM_app {A B} (f : A -> result B) (a b : list A) :
  mapM f (a ++ b) = xs <- mapM f a ;; ys <- mapM f b ;; Ok (xs ++ ys).
Proof.
  induction a as [|x a IH]; simpl.
  - destruct (mapM f b); reflexivity.
  - destruct (f x) as [y|e]; simpl; [|reflexivity].
    rewrite IH.
    destruct (mapM f a) as [xs|e]; simpl; [|reflexivity].
    destruct (mapM f b); reflexivity.
Qed.

Lemma flattenCountriesArray_Arr (l : list value) :
  flattenCountriesArray (Arr l)
  = outs <- mapM flattenCountryFields l ;; Ok (Arr outs).
Proof. reflexivity. Qed.

(** A batch can be flattened in pieces: flattening the concatenation of
    two arrays returns exactly when flattening each of them returns, and the
    result is the concatenation of the two results. *)
Theorem flattenCountriesArray_concat (a b outs : list value) :
  flattenCountriesArray (Arr (a ++ b)) = Ok (Arr outs)
  <-> exists outsA outsB,
        outs = outsA ++ outsB
        /\ flattenCountriesArray (Arr a) = Ok (Arr outsA)
        /\ flattenCountriesArray (Arr b) = Ok (Arr outsB).
Proof.
  rewrite (flattenCountriesArray_Arr (a ++ b)), mapM_app.
  split.
  - destruct (mapM flattenCountryFields a) as [xs|e] eqn:Ha; simpl;
      [|discriminate].
    destruct (mapM flattenCountryFields b) as [ys|e] eqn:Hb; simpl;
      [|discriminate].
    intros H. inversion H. exists xs, ys.
    rewrite !flattenCountriesArray_Arr, Ha, Hb. repeat split.
  - intros (xs & ys & -> & Ha & Hb).
    rewrite flattenCountriesArray_Arr in Ha, Hb.
    destruct (mapM flattenCountryFields a) as [xs'|e]; simpl in *;
      [|discriminate].
    destruct (mapM flattenCountryFields b) as [ys'|e]; simpl in *;
      [|discriminate].
    inversion Ha. inversion Hb. reflexivity.
Qed.

Lemma flattenCountriesArray_concat_witness :
  flattenCountriesArray (Arr ([ france ] ++ [ antarctica; Null ]))
  = Ok (Arr ([ flat_record (Str (lit "France")) (Str (lit "Europe"))
                 (Str (lit "Paris")) (Str (lit "French"))
                 (Num (number_of_Z 67391582)) (Num (number_of_Z 551695))
                 (Str (lit "https://flagcdn.com/w320/fr.png")) ]
             ++ [ flat_record (Str (lit "Antarctica")) NA NA NA NA
                    (Num (number_of_Z 14000000)) (Str []);
                  absent_record ])).
Proof.
  apply (proj2 (flattenCountriesArray_concat [ france ] [ antarctica; Null ] _)).
  eexists. eexists. split; [reflexivity|]. split; reflexivity.
Defined.

(** Elements that are not objects are not dropped from a batch: whatever
    else the batch contains, when it is flattened the record of a malformed
    input stands at the position of every element that is not an object.
    A batch of such elements alone always returns, with that record
    throughout. *)
Theorem flattenCountriesArray_malformed_elements :
  (forall l outs i c,
      flattenCountriesArray (Arr l) = Ok (Arr outs) ->
      nth_error l i = Some c ->
      is_structured c = false ->
      nth_error outs i = Some absent_record)
  /\ (forall l,
        Forall (fun c => is_structured c = false) l ->
        flattenCountriesArray (Arr l)
        = Ok (Arr (repeat absent_record (List.length l)))).
Proof.
  split.
  - intros l outs i c H Hi Hc.
    rewrite flattenCountriesArray_Arr in H.
    destruct (mapM flattenCountryFields l) as [outs'|e] eqn:Hm; simpl in H;
      [|discriminate].
    inversion H. subst outs'. apply mapM_Ok_Forall2 in Hm.
    destruct (Forall2_nth_error _ _ _ Hm i c Hi) as (o & Ho & Hflat).
    rewrite (flatten_unstructured c Hc) in Hflat.
    inversion Hflat. subst o. exact Ho.
  - intros l HF. rewrite flattenCountriesArray_Arr.
    assert (Hm : mapM flattenCountryFields l
                 = Ok (repeat absent_record (List.length l))).
    { induction HF as [|c l Hc _ IH]; simpl; [reflexivity|].
      rewrite (flatten_unstructured c Hc), IH. reflexivity. }
    rewrite Hm. reflexivity.
Qed.

Lemma flattenCountriesArray_malformed_elements_witness :
  nth_error
    [ flat_record (Str (lit "France")) (Str (lit "Europe"))
        (Str (lit "Paris")) (Str (lit "French"))
        (Num (number_of_Z 67391582)) (Num (number_of_Z 551695))
        (Str (lit "https://flagcdn.com/w320/fr.png"));
      absent_record ] 1
  = Some absent_record
  /\ flattenCountriesArray
       (Arr [ Null; Undefined; Num (number_of_Z 3); Str (lit "France") ])
     = Ok (Arr [ absent_record; absent_record; absent_record; absent_record ]).
Proof.
  destruct flattenCountriesArray_malformed_elements as (Hat & Hall).
  split.
  - exact (Hat [ france; Null ] _ 1%nat Null eq_refl eq_refl eq_refl).
  - apply (Hall [ Null; Undefined; Num (number_of_Z 3); Str (lit "France") ]).
    repeat constructor.
Defined.

(** ** The statistics and the display of example-usage.js *)

Lemma flatten_Ok_flattened (v out : value) :
  flattenCountryFields v = Ok out ->
  exists langs,
    formatLanguages (read v (lit "languages")) = Ok langs
    /\ out = flattened v langs.
Proof.
  rewrite flatten_fields.
  destruct (formatLanguages (read v (lit "languages"))) as [langs|e];
    simpl; [|discriminate].
  intros H. inversion H. exists langs. split; reflexivity.
Qed.

Lemma Get_flattened (v langs : value) (p : jsstring) :
  Get (flattened v langs) p = Ok (read (flattened v langs) p).
Proof. apply Get_read. reflexivity. Qed.

Lemma typeof_keep_number (x : value) :
  jsstring_eqb (typeof (keep x)) (lit "number") = is_number x.
Proof. destruct x; reflexivity. Qed.

Lemma keep_of_number (x : value) : is_number x = true -> keep x = x.
Proof. destruct x; try discriminate; reflexivity. Qed.

Lemma filterM_cons {A} (f : A -> result value) (a : A) (l : list A) :
  filterM f (a :: l)
  = selected <- f a ;;
    rest <- filterM f l ;;
    Ok (if ToBoolean selected then a :: rest else rest).
Proof. reflexivity. Qed.

Lemma mapM_cons {A B} (f : A -> result B) (a : A) (l : list A) :
  mapM f (a :: l) = b <- f a ;; bs <- mapM f l ;; Ok (b :: bs).
Proof. reflexivity. Qed.

Lemma valid_populations_of_flattened (l outs : list value) :
  Forall2 (fun c o => flattenCountryFields c = Ok o) l outs ->
  (withPopulation <-
     filterM (fun c => p <- Get c (lit "population") ;;
                       Ok (strict_eq_strings (typeof p) (lit "number"))) outs ;;
   mapM (fun c => Get c (lit "population")) withPopulation)
  = Ok (filter is_number (map (fun c => read c (lit "population")) l)).
Proof.
  induction 1 as [|c o l outs Hc _ IH]; [reflexivity|].
  destruct (flatten_Ok_flattened c o Hc) as (langs & _ & ->).
  destruct (read_flattened c langs) as (_ & _ & _ & _ & Hp & _).
  rewrite filterM_cons, Get_flattened, Hp, bind_Ok, bind_Ok.
  change (ToBoolean
            (strict_eq_strings (typeof (keep (read c (lit "population"))))
               (lit "number")))
    with (jsstring_eqb (typeof (keep (read c (lit "population"))))
            (lit "number")).
  rewrite typeof_keep_number.
  change (map (fun c0 => read c0 (lit "population")) (c :: l))
    with (read c (lit "population")
            :: map (fun c0 => read c0 (lit "population")) l).
  change (filter is_number
            (read c (lit "population")
               :: map (fun c0 => read c0 (lit "population")) l))
    with (if is_number (read c (lit "population"))
          then read c (lit "population")
                 :: filter is_number
                      (map (fun c0 => read c0 (lit "population")) l)
          else filter is_number
                 (map (fun c0 => read c0 (lit "population")) l)).
  destruct (filterM _ outs) as [os|e]; [|discriminate IH].
  rewrite bind_Ok in IH. rewrite !bind_Ok.
  destruct (is_number (read c (lit "population"))) eqn:Hnum.
  - rewrite mapM_cons, Get_flattened, Hp, IH, !bind_Ok.
    rewrite (keep_of_number _ Hnum). reflexivity.
  - exact IH.
Qed.

Lemma validPopulations_flattened (l outs : list value) :
  Forall2 (fun c o => flattenCountryFields c = Ok o) l outs ->
  validPopulations (Arr outs)
  = Ok (Arr (filter is_number (map (fun c => read c (lit "population")) l))).
Proof.
  intros Hm.
  pose proof (valid_populations_of_flattened l outs Hm) as Hv.
  unfold validPopulations, Array_filter, Array_map.
  destruct (filterM _ outs) as [os|e]; simpl in Hv |- *; [|discriminate Hv].
  rewrite Hv. reflexivity.
Qed.

Lemma flattenCountriesArray_Forall2 (l outs : list value) :
  flattenCountriesArray (Arr l) = Ok (Arr outs) ->
  Forall2 (fun c o => flattenCountryFields c = Ok o) l outs.
Proof.
  intros H. rewrite flattenCountriesArray_Arr in H.
  destruct (mapM flattenCountryFields l) as [outs'|e] eqn:Hm; simpl in H;
    [|discriminate].
  inversion H. subst outs'. apply mapM_Ok_Forall2. exact Hm.
Qed.

(** The populations the batch example collects from a flattened batch are
    the source populations that are numbers, in the order of the input and
    zero included; the records without a numeric population are the ones
    left out. *)
Theorem validPopulations_of_batch (l outs : list value) :
  flattenCountriesArray (Arr l) = Ok (Arr outs) ->
  validPopulations (Arr outs)
  = Ok (Arr (filter is_number (map (fun c => read c (lit "population")) l)))
  /\ (List.length
        (filter is_number (map (fun c => read c (lit "population")) l))
      <= List.length outs)%nat.
Proof.
  intros H. apply flattenCountriesArray_Forall2 in H. rename H into Hm.
  split.
  - exact (validPopulations_flattened l outs Hm).
  - rewrite <- (Forall2_length Hm), <- (length_map (fun c => read c (lit "population")) l).
    apply filter_length_le.
Qed.

Lemma validPopulations_of_batch_witness :
  validPopulations
    (Arr [ flat_record (Str (lit "France")) (Str (lit "Europe"))
             (Str (lit "Paris")) (Str (lit "French"))
             (Num (number_of_Z 67391582)) (Num (number_of_Z 551695))
             (Str (lit "https://flagcdn.com/w320/fr.png"));
           flat_record (Str (lit "Antarctica")) NA NA NA NA
             (Num (number_of_Z 14000000)) (Str []);
           flat_record NA NA NA NA (Num (number_of_Z 0)) NA (Str []) ])
  = Ok (Arr [ Num (number_of_Z 67391582); Num (number_of_Z 0) ]).
Proof.
  exact (proj1 (validPopulations_of_batch
                  [ france; antarctica;
                    Obj [ (lit "population", Num (number_of_Z 0)) ] ]
                  _ eq_refl)).
Defined.

(** What the examples print for the population or the area of a flattened
    country is "N/A" when the source value is [undefined] or [null], and
    otherwise what [formatNumber] makes of the source value itself. *)
Theorem displayed_population_and_area (v out : value) (p : jsstring) :
  p = lit "population" \/ p = lit "area" ->
  flattenCountryFields v = Ok out ->
  displayed out p
  = if nullish (read v p) then Ok (Str (lit "N/A")) else formatNumber (read v p).
Proof.
  intros Hp Hout.
  destruct (flatten_Ok_flattened v out Hout) as (langs & _ & ->).
  unfold displayed. rewrite Get_flattened. simpl bind.
  destruct (read_flattened v langs) as (_ & _ & _ & _ & Hpop & Harea & _).
  destruct Hp as [-> | ->]; [rewrite Hpop | rewrite Harea];
    unfold keep; destruct (nullish (read v _)); reflexivity.
Qed.

Lemma displayed_population_and_area_witness :
  displayed
    (flat_record (Str (lit "Antarctica")) NA NA NA NA
       (Num (number_of_Z 14000000)) (Str []))
    (lit "population")
  = Ok (Str (lit "N/A"))
  /\ displayed
       (flat_record (Str (lit "Antarctica")) NA NA NA NA
          (Num (number_of_Z 14000000)) (Str []))
       (lit "area")
     = Ok (Str (lit "14,000,000")).
Proof.
  split.
  - exact (displayed_population_and_area antarctica _ (lit "population")
             (or_introl eq_refl) eq_refl).
  - exact (displayed_population_and_area antarctica _ (lit "area")
             (or_intror eq_refl) eq_refl).
Defined.

(** ** [formatNumber] on values that are not numbers *)

(** [formatNumber] does not check that its argument is a number: a
    non-empty string is returned as it is, digits or not, [true] gives
    "true", an object without own [toString] and [toLocaleString] gives
    "[object Object]" and the empty array the empty string. *)
Theorem formatNumber_not_a_number :
  (forall s, s <> [] -> formatNumber (Str s) = Ok (Str s))
  /\ formatNumber (Bool true) = Ok (Str (lit "true"))
  /\ (forall props,
        has_own props (lit "toLocaleString") = false ->
        has_own props (lit "toString") = false ->
        formatNumber (Obj props) = Ok (Str (lit "[object Object]")))
  /\ formatNumber (Arr []) = Ok (Str []).
Proof.
  split.
  { intros [|c s] Hs; [contradiction Hs; reflexivity | reflexivity]. }
  split; [reflexivity|].
  split; [|reflexivity].
  intros props Hl Hs. unfold formatNumber. simpl. rewrite Hl, Hs. reflexivity.
Qed.

Lemma formatNumber_not_a_number_witness :
  formatNumber (Str (lit "1234567")) = Ok (Str (lit "1234567"))
  /\ formatNumber (Obj [ (lit "population", Num (number_of_Z 5)) ])
     = Ok (Str (lit "[object Object]")).
Proof.
  destruct formatNumber_not_a_number as (Hstr & _ & Hobj & _).
  split.
  - apply Hstr. discriminate.
  - apply Hobj; reflexivity.
Defined.

(** ** Flattening again and again *)

Lemma flatten_flat_record (n r c l p a f : value) :
  flattenCountryFields (flat_record n r c l p a f)
  = langs <- formatLanguages l ;;
    Ok (flat_record (or_else (read n (lit "common")) NA) (or_else r NA)
          (or_else (read c (lit "0")) NA) langs (keep p) (keep a) (Str [])).
Proof. rewrite flatten_fields. reflexivity. Qed.

Lemma or_else_of_truthy (a b : value) : ToBoolean a = true -> or_else a b = a.
Proof. intros H. unfold or_else. rewrite H. reflexivity. Qed.

Lemma keep_of_present (x : value) : nullish x = false -> keep x = x.
Proof. intros H. unfold keep. rewrite H. reflexivity. Qed.

(** Flattening settles after two rounds: when the first output's [name]
    and [capital] are strings, the output of flattening it is a record that
    flattening maps to itself. *)
Theorem flatten_settles (v out1 out2 : value) :
  flattenCountryFields v = Ok out1 ->
  is_string (read out1 (lit "name")) = true ->
  is_string (read out1 (lit "capital")) = true ->
  flattenCountryFields out1 = Ok out2 ->
  flattenCountryFields out2 = Ok out2.
Proof.
  intros H1 Hname Hcapital H2.
  destruct (flatten_Ok_flattened v out1 H1) as (langs & Hl & ->).
  pose proof (formatLanguages_string _ _ Hl) as Hlangs.
  unfold flattened in *.
  set (n := or_else (read (read v (lit "name")) (lit "common")) NA) in *.
  set (r := or_else (read v (lit "region")) NA) in *.
  set (c := or_else (read (read v (lit "capital")) (lit "0")) NA) in *.
  assert (Hr : ToBoolean r = true) by (apply or_else_truthy; reflexivity).
  assert (Hc : ToBoolean c = true) by (apply or_else_truthy; reflexivity).
  change (is_string n = true) in Hname.
  change (is_string c = true) in Hcapital.
  rewrite flatten_flat_record in H2.
  destruct langs as [| | | |ls| |]; try discriminate Hlangs.
  destruct n as [| | | |ns| |]; try discriminate Hname.
  destruct c as [| | | |[|u cs]| |]; try discriminate Hcapital;
    try discriminate Hc.
  rewrite (formatLanguages_unstructured (Str ls) eq_refl) in H2.
  rewrite bind_Ok in H2.
  rewrite (or_else_of_truthy r NA Hr) in H2.
  rewrite !(keep_of_present (keep _)) in H2 by apply keep_not_nullish.
  inversion H2 as [Heq]. clear H2 Heq.
  rewrite flatten_flat_record.
  rewrite (formatLanguages_unstructured NA eq_refl), bind_Ok.
  rewrite (or_else_of_truthy r NA Hr).
  rewrite !(keep_of_present (keep _)) by apply keep_not_nullish.
  reflexivity.
Qed.

Lemma flatten_settles_witness :
  flattenCountryFields
    (flat_record (Str (lit "N/A")) (Str (lit "Europe")) (Str (lit "P"))
       (Str (lit "N/A")) (Num (number_of_Z 67391582))
       (Num (number_of_Z 551695)) (Str []))
  = Ok (flat_record (Str (lit "N/A")) (Str (lit "Europe")) (Str (lit "P"))
          (Str (lit "N/A")) (Num (number_of_Z 67391582))
          (Num (number_of_Z 551695)) (Str [])).
Proof.
  exact (flatten_settles france _ _ eq_refl eq_refl eq_refl eq_refl).
Defined.

(** ** Language names that are missing *)

Lemma mapM_join_pieces (vals : list value) :
  Forall (fun x => is_string x = true \/ nullish x = true) vals ->
  mapM join_element vals = Ok (map piece vals).
Proof.
  induction 1 as [|x vals Hx _ IH]; [reflexivity|].
  simpl. rewrite IH.
  destruct Hx as [Hx | Hx]; destruct x; try discriminate; reflexivity.
Qed.

(** In a mapping with entries whose names are strings, [null] or
    [undefined], a name that is [null] or [undefined] contributes the empty
    text between the separators; a mapping whose only name is [null],
    [undefined] or the empty string is therefore formatted as the empty
    string. *)
Theorem formatLanguages_missing_names :
  (forall props,
      props <> [] ->
      Forall (fun x => is_string x = true \/ nullish x = true) (map snd props) ->
      formatLanguages (Obj props)
      = Ok (Str (intercalate (lit ", ") (map piece (map snd props)))))
  /\ (forall k x,
        nullish x = true \/ x = Str [] ->
        formatLanguages (Obj [ (k, x) ]) = Ok (Str [])).
Proof.
  assert (Hgen : forall props,
      props <> [] ->
      Forall (fun x => is_string x = true \/ nullish x = true) (map snd props) ->
      formatLanguages (Obj props)
      = Ok (Str (intercalate (lit ", ") (map piece (map snd props))))).
  { intros [|kv props] Hne HF; [contradiction Hne; reflexivity|].
    rewrite (formatLanguages_values _ (snd kv) (map snd props));
      [ | reflexivity | reflexivity ].
    unfold Array_join.
    change (snd kv :: map snd props) with (map snd (kv :: props)).
    rewrite (mapM_join_pieces _ HF). reflexivity. }
  split; [exact Hgen|].
  intros k x Hx. rewrite Hgen.
  - destruct Hx as [Hx | ->]; [destruct x; try discriminate|]; reflexivity.
  - discriminate.
  - constructor; [|constructor].
    destruct Hx as [Hx | ->]; [right; exact Hx | left; reflexivity].
Qed.

Lemma formatLanguages_missing_names_witness :
  formatLanguages
    (Obj [ (lit "eng", Str (lit "English")); (lit "fra", Null);
           (lit "deu", Str (lit "German")) ])
  = Ok (Str (lit "English, , German"))
  /\ formatLanguages (Obj [ (lit "eng", Null) ]) = Ok (Str []).
Proof.
  destruct formatLanguages_missing_names as (Hgen & Hone).
  split.
  - apply (Hgen [ (lit "eng", Str (lit "English")); (lit "fra", Null);
                  (lit "deu", Str (lit "German")) ]).
    + discriminate.
    + constructor; [left; reflexivity|].
      constructor; [right; reflexivity|].
      constructor; [left; reflexivity|].
      constructor.
  - apply Hone. left. reflexivity.
Defined.

(** ** The total of the statistics *)

Lemma filter_numbers (l : list value) :
  exists xs, filter is_number l = map Num xs.
Proof.
  induction l as [|x l [xs IH]]; [exists []; reflexivity|].
  simpl. destruct x; simpl; try (exists xs; exact IH).
  exists (x :: xs). simpl. rewrite IH. reflexivity.
Qed.

Lemma add_numbers (x y : number) :
  add (Num x) (Num y) = Ok (Num (SFadd prec emax x y)).
Proof. reflexivity. Qed.

Lemma foldM_add_numbers (xs : list number) (acc : number) :
  foldM (fun sum pop => add sum pop) (map Num xs) (Num acc)
  = Ok (Num (fold_left (SFadd prec emax) xs acc)).
Proof.
  revert acc. induction xs as [|x xs IH]; intros acc; [reflexivity|].
  simpl map. simpl fold_left. rewrite <- IH. reflexivity.
Qed.

(** Because the statistics keep the numeric populations only, their total
    is a number, the populations added up from 0 in binary64 arithmetic,
    whatever the batch contains.  Adding the "N/A" of a missing population
    instead would turn the total into text. *)
Theorem totalPopulation_is_a_number :
  (forall l outs,
      flattenCountriesArray (Arr l) = Ok (Arr outs) ->
      exists xs,
        validPopulations (Arr outs) = Ok (Arr (map Num xs))
        /\ totalPopulation (Arr (map Num xs))
           = Ok (Num (fold_left (SFadd prec emax) xs (number_of_Z 0))))
  /\ (forall x s, add (Num x) (Str s) = Ok (Str (Number_toString x ++ s)))
  /\ totalPopulation (Arr [ Num (number_of_Z 5); Str (lit "N/A") ])
     = Ok (Str (lit "5N/A")).
Proof.
  split; [|split; [reflexivity | vm_compute; reflexivity]].
  intros l outs H. apply flattenCountriesArray_Forall2 in H.
  destruct (filter_numbers (map (fun c => read c (lit "population")) l))
    as [xs Hxs].
  exists xs. split.
  - rewrite (validPopulations_flattened l outs H), Hxs. reflexivity.
  - unfold totalPopulation, Array_reduce. apply foldM_add_numbers.
Qed.

Lemma totalPopulation_is_a_number_witness :
  exists xs,
    validPopulations
      (Arr [ flat_record (Str (lit "Antarctica")) NA NA NA NA
               (Num (number_of_Z 14000000)) (Str []);
             absent_record ])
    = Ok (Arr (map Num xs))
    /\ totalPopulation (Arr (map Num xs))
       = Ok (Num (fold_left (SFadd prec emax) xs (number_of_Z 0))).
Proof.
  exact (proj1 totalPopulation_is_a_number [ antarctica; Null ] _ eq_refl).
Defined.

(** ** The total is exact

    Binary64 addition of natural numbers is exact as long as the sum stays
    below [2^53]: the sum of the aligned significands is rounded by
    [binary_round], which loses nothing. *)

Lemma integral_positive (m : positive) (e z : Z) : integral m e z -> 0 < z.
Proof.
  intros [[He ->] | [He Hm]].
  - assert (0 < 2 ^ e) by (apply Z.pow_pos_nonneg; lia). nia.
  - assert (0 < 2 ^ (- e)) by (apply Z.pow_pos_nonneg; lia). nia.
Qed.

Lemma natural_nonneg (x : number) (z : Z) : natural x z -> 0 <= z.
Proof.
  destruct x as [s|s| |[|] m e]; simpl; try contradiction; try lia.
  intros H. apply integral_positive in H. lia.
Qed.

Lemma shl_align_scaled (m : positive) (e e' z : Z) :
  integral m e z -> e' <= e ->
  scaled (Zpos (fst (shl_align m e e'))) e' z.
Proof.
  intros Hz Hle. unfold shl_align. std_Z.
  destruct (e' - e) as [|p|k] eqn:Hd; simpl fst.
  - assert (e' = e) by lia. subst. exact Hz.
  - lia.
  - rewrite shift_value. replace (Zpos k) with (e - e') by lia.
    assert (0 < 2 ^ (e - e')) by (apply Z.pow_pos_nonneg; lia).
    unfold scaled. destruct Hz as [[He ->] | [He ->]].
    + destruct (Z_lt_le_dec e' 0).
      * right. split; [lia|].
        replace (e - e') with (e + - e') by lia.
        rewrite Z.pow_add_r by lia. ring.
      * left. split; [lia|].
        replace e with (e - e' + e') at 1 by lia.
        rewrite Z.pow_add_r by lia. ring.
    + right. split; [lia|].
      replace (- e') with (- e + (e - e')) by lia.
      rewrite Z.pow_add_r by lia. ring.
Qed.

Lemma scaled_add (m1 m2 e z1 z2 : Z) :
  scaled m1 e z1 -> scaled m2 e z2 -> scaled (m1 + m2) e (z1 + z2).
Proof.
  unfold scaled. intros [[He ->] | [He ->]] [[He' ->] | [He' ->]]; lia.
Qed.

Lemma SFadd_natural (x y : number) (zx zy : Z) :
  natural x zx -> natural y zy -> zx + zy < 2 ^ 53 ->
  x <> S754_zero true ->
  natural (SFadd prec emax x y) (zx + zy)
  /\ SFadd prec emax x y <> S754_zero true.
Proof.
  intros Hx Hy Hsum Hnz.
  destruct x as [sx|sx| |[|] mx ex]; simpl in Hx; try contradiction;
    destruct y as [sy|sy| |[|] my ey]; simpl in Hy; try contradiction.
  - subst. destruct sx; [contradiction Hnz; reflexivity|].
    destruct sy; simpl; split; try reflexivity; discriminate.
  - subst. simpl. split; [exact Hy | discriminate].
  - subst. simpl. rewrite Z.add_0_r. split; [exact Hx | discriminate].
  - unfold SFadd, cond_Zopp.
    set (ez := Z.min ex ey).
    pose proof (shl_align_scaled mx ex ez zx Hx ltac:(unfold ez; lia)) as Sx.
    pose proof (shl_align_scaled my ey ez zy Hy ltac:(unfold ez; lia)) as Sy.
    pose proof (scaled_add _ _ _ _ _ Sx Sy) as S.
    std_Z. fold ez.
    change (Zpos (fst (shl_align mx ex ez)) + Zpos (fst (shl_align my ey ez)))
      with (Zpos (fst (shl_align mx ex ez) + fst (shl_align my ey ez))) in *.
    unfold binary_normalize.
    destruct (binary_round_exact _ _ _ S Hsum) as (m & e & Hr & Hi & _).
    rewrite Hr. split; [exact Hi | discriminate].
Qed.

Lemma fold_SFadd_natural (xs : list number) (zs : list Z) :
  Forall2 natural xs zs ->
  forall acc za,
    natural acc za -> acc <> S754_zero true ->
    za + fold_right Z.add 0 zs < 2 ^ 53 ->
    natural (fold_left (SFadd prec emax) xs acc) (za + fold_right Z.add 0 zs)
    /\ fold_left (SFadd prec emax) xs acc <> S754_zero true.
Proof.
  induction 1 as [|x z xs zs Hx HF IH]; intros acc za Hacc Hnz Hsum; simpl in *.
  - rewrite Z.add_0_r. split; assumption.
  - assert (Hrest : 0 <= fold_right Z.add 0 zs).
    { clear -HF. induction HF as [|x z xs zs Hx _ IH]; simpl; [lia|].
      apply natural_nonneg in Hx. lia. }
    destruct (SFadd_natural acc x za z Hacc Hx ltac:(lia) Hnz) as [Hn Hz].
    replace (za + (z + fold_right Z.add 0 zs))
      with (za + z + fold_right Z.add 0 zs) by lia.
    apply IH; [exact Hn | exact Hz | lia].
Qed.

(** The total of the statistics is exact: when the populations are natural
    numbers whose sum is below [2^53], the total is that sum, and
    [formatNumber] prints its decimal digits in groups of three. *)
Theorem totalPopulation_is_exact (xs : list number) (zs : list Z) :
  Forall2 natural xs zs ->
  fold_right Z.add 0 zs < 2 ^ 53 ->
  exists total,
    totalPopulation (Arr (map Num xs)) = Ok (Num total)
    /\ natural total (fold_right Z.add 0 zs)
    /\ formatNumber (Num total)
       = Ok (Str (group_thousands (decimal (fold_right Z.add 0 zs)))).
Proof.
  intros HF Hsum.
  exists (fold_left (SFadd prec emax) xs (number_of_Z 0)).
  destruct (fold_SFadd_natural xs zs HF (number_of_Z 0) 0 eq_refl
              ltac:(discriminate) ltac:(lia)) as [Hn Hz].
  rewrite Z.add_0_l in Hn.
  split; [|split; [exact Hn|]].
  - unfold totalPopulation, Array_reduce. apply foldM_add_numbers.
  - destruct (fold_left (SFadd prec emax) xs (number_of_Z 0))
      as [[|]|s| |[|] m e]; simpl in Hn; try contradiction.
    + rewrite Hn. reflexivity.
    + change (formatNumber (Num (S754_finite false m e)))
        with (Ok (Str (Number_toLocaleString (S754_finite false m e)))).
      rewrite (toLocaleString_integral false m e _ Hn Hsum). reflexivity.
Qed.

Lemma totalPopulation_is_exact_witness :
  exists total,
    totalPopulation
      (Arr [ Num (number_of_Z 67391582); Num (number_of_Z 0);
             Num (number_of_Z 8654622) ])
    = Ok (Num total)
    /\ natural total 76046204
    /\ formatNumber (Num total) = Ok (Str (lit "76,046,204")).
Proof.
  apply (totalPopulation_is_exact
           [ number_of_Z 67391582; number_of_Z 0; number_of_Z 8654622 ]
           [ 67391582; 0; 8654622 ]).
  - constructor; [vm_compute; right; split; reflexivity|].
    constructor; [reflexivity|].
    constructor; [vm_compute; right; split; reflexivity|].
    constructor.
  - reflexivity.
Defined.
